(** * Lease tracker dashboard: card reordering, share links and the
      project-data hook

    A shallow embedding of [src/pages/LeaseTrackerPage.tsx] (the handlers
    [handleCardReorder], [copyToClipboard], [handleShareProject]) and of
    [src/hooks/useProjectData.ts] (the [fetchData] callback of the
    [useProjectData] hook), followed by the properties proved about them.

    JavaScript values are modelled as the code uses them: optional strings
    for [string | null | undefined], integers for array positions, lists for
    arrays.  Asynchronous handlers run to completion on a single event loop;
    they are modelled as computations over a world that carries the React
    state, the system clipboard and the log of calls made to the outside
    (backend, clipboard, dialogs).  What the outside answers is read from an
    environment record. *)

From Stdlib Require Import String Ascii ZArith Lia Bool Arith.
From Stdlib Require Import DecimalString DecimalNat List Sorted.
From Stdlib Require Import Permutation.
Import ListNotations.

Local Open Scope string_scope.
Local Open Scope list_scope.

(* ------------------------------------------------------------------ *)
(** ** JavaScript primitives used by the two files *)

Module Js.

(** Truthiness of a [string | null | undefined]: the empty string, [null]
    and [undefined] are falsy. *)
Definition truthy (s : option string) : bool :=
  match s with
  | Some EmptyString => false
  | Some _ => true
  | None => false
  end.

(** [a && s] for a boolean [a] and an optional string [s], read where a
    string is then needed: the string when both are truthy. *)
Definition and_string (a : bool) (s : option string) : option string :=
  if a && truthy s then s else None.

(** [Array.prototype.splice(start, deleteCount, ...items)] on integer
    arguments: the removed elements and the array after the call. *)
Definition splice {A : Type} (l : list A) (start deleteCount : Z)
    (items : list A) : list A * list A :=
  let len := Z.of_nat (List.length l) in
  let actualStart :=
    if (start <? 0)%Z then Z.max (len + start) 0 else Z.min start len in
  let actualDeleteCount :=
    Z.min (Z.max deleteCount 0) (len - actualStart) in
  let s := Z.to_nat actualStart in
  let d := Z.to_nat actualDeleteCount in
  (firstn d (skipn s l), firstn s l ++ items ++ skipn (s + d) l).

(** [Array.prototype.map((x, index) => f(x, index))]. *)
Fixpoint mapi_from {A B : Type} (f : A -> nat -> B) (k : nat) (l : list A)
    : list B :=
  match l with
  | [] => []
  | x :: l' => f x k :: mapi_from f (S k) l'
  end.

Definition mapi {A B : Type} (f : A -> nat -> B) (l : list A) : list B :=
  mapi_from f 0 l.

(** [`${index}`] for an array index. *)
Definition number_to_string (n : nat) : string :=
  NilEmpty.string_of_uint (Nat.to_uint n).

(** A thrown or rejected value, as [catch] inspects it. *)
Record Thrown : Type := mkThrown {
  instanceof_Error : bool;
  message : string
}.

(** [new Error(msg)]. *)
Definition new_Error (msg : string) : Thrown :=
  {| instanceof_Error := true; message := msg |}.

End Js.

(* ------------------------------------------------------------------ *)
(** ** Computations with state and exceptions *)

Module Eff.

Inductive Completion (A : Type) : Type :=
| Normal (a : A)
| Abrupt (x : Js.Thrown).

Arguments Normal {A} a.
Arguments Abrupt {A} x.

Definition M (W A : Type) : Type := W -> Completion A * W.

Section Ops.
Context {W : Type}.

Definition ret {A : Type} (a : A) : M W A := fun w => (Normal a, w).

Definition bind {A B : Type} (m : M W A) (k : A -> M W B) : M W B :=
  fun w =>
    match m w with
    | (Normal a, w') => k a w'
    | (Abrupt x, w') => (Abrupt x, w')
    end.

Definition throw {A : Type} (x : Js.Thrown) : M W A :=
  fun w => (Abrupt x, w).

Definition modify (f : W -> W) : M W unit := fun w => (Normal tt, f w).

(** [try { body } catch (x) { handler }] *)
Definition try_catch {A : Type} (body : M W A)
    (handler : Js.Thrown -> M W A) : M W A :=
  fun w =>
    match body w with
    | (Normal a, w') => (Normal a, w')
    | (Abrupt x, w') => handler x w'
    end.

(** [try { body } finally { fin }] *)
Definition try_finally {A : Type} (body : M W A) (fin : M W unit)
    : M W A :=
  fun w =>
    match body w with
    | (c, w') =>
        match fin w' with
        | (Normal _, w'') => (c, w'')
        | (Abrupt x, w'') => (Abrupt x, w'')
        end
    end.

(** The world a computation leaves behind. *)
Definition exec {A : Type} (m : M W A) (w : W) : W := snd (m w).

End Ops.

Module Notations.
Notation "x <- m ;; k" := (bind m (fun x => k))
  (at level 61, m at next level, right associativity).
Notation "m ;; k" := (bind m (fun _ => k))
  (at level 61, right associativity).
End Notations.

End Eff.

Import Eff.Notations.

(* ------------------------------------------------------------------ *)
(** ** The page controller, [LeaseTrackerPage.tsx] *)

Module LeaseTrackerPage.

Inductive CardType : Type :=
| updates | availability | properties | roadmap | documents.

Record ProjectCard : Type := mkCard {
  id : string;
  type : CardType;
  title : string;
  order_key : string
}.

(** An element of the card array at run time.  [{...card, order_key}]
    applied to [undefined] gives an object that has an order key and
    nothing else. *)
Inductive CardObject : Type :=
| FullCard (c : ProjectCard)
| OrderKeyOnly (k : string).

Definition card_order_key (c : CardObject) : string :=
  match c with
  | FullCard c => order_key c
  | OrderKeyOnly k => k
  end.

(** What a card object holds besides its order key. *)
Definition card_content (c : CardObject)
    : option (string * CardType * string) :=
  match c with
  | FullCard c => Some (id c, type c, title c)
  | OrderKeyOnly _ => None
  end.

Definition DEFAULT_CARD_ORDER : list CardObject :=
  [ FullCard (mkCard "updates" updates "Recent Updates" "a0");
    FullCard (mkCard "availability" availability
                "Client Tour Availability" "a1");
    FullCard (mkCard "properties" properties "Properties of Interest" "a2");
    FullCard (mkCard "roadmap" roadmap "Project Roadmap" "a3");
    FullCard (mkCard "documents" documents "Project Documents" "a4") ].

(** A row of the [projects] table: the two columns the handlers read, and
    the remaining columns kept as they came. *)
Record ProjectData : Type := mkProject {
  project_id : string;
  public_share_id : option string;
  other_columns : list (string * string)
}.

(** The React state of the page that the handlers read or set. *)
Record PageState : Type := mkPage {
  project : option ProjectData;
  cardOrder : list CardObject;
  copySuccess : bool
}.

(** [navigator.clipboard]: absent, or present with a [writeText] that
    resolves or rejects. *)
Inductive ClipboardApi : Type :=
| NoClipboardApi
| WriteTextResolves
| WriteTextRejects.

(** The legacy path: [document.execCommand("copy")] returns a boolean, or
    something in the block throws. *)
Inductive LegacyCopy : Type :=
| ExecCommandReturns (ok : bool)
| LegacyThrows.

(** The answer of [supabase.from("projects").update(..).eq(..)]: no error,
    an error in the result object, or a rejected request. *)
Inductive UpdateAnswer : Type :=
| UpdateOk
| UpdateError (e : Js.Thrown)
| UpdateRejects (e : Js.Thrown).

(** Calls that leave the component, each with what it answered. *)
Inductive Event : Type :=
| EvLocalStore (key : string) (cards : list CardObject)
| EvSaveDashboardCardOrder (cards : list CardObject) (projectId : string)
| EvClipboardWriteText (text : string) (resolved : bool)
| EvExecCommandCopy (text : string) (answer : LegacyCopy)
| EvAlert (msg : string)
| EvRandomUUID (generated : option string)
| EvSetTimeout (ms : nat)
| EvUpdateShareId (projectId : string) (shareId : string)
    (answer : UpdateAnswer).

Record World : Type := mkWorld {
  page : PageState;
  clipboard : option string;
  trace : list Event
}.

(** What the browser, the identity provider and the backend answer during
    one handler run. *)
Record Env : Type := mkEnv {
  route_id : option string;              (* useParams().id *)
  user : option string;                  (* useUser().user *)
  origin : string;                       (* window.location.origin *)
  navigator_clipboard : ClipboardApi;
  legacy_copy : LegacyCopy;
  randomUUID : option string;            (* None: crypto.randomUUID throws *)
  update_answer : UpdateAnswer
}.

Definition Handler := Eff.M World unit.

Definition emit (e : Event) : Handler :=
  Eff.modify (fun w => mkWorld (page w) (clipboard w) (trace w ++ [e])).

Definition set_clipboard (text : string) : Handler :=
  Eff.modify (fun w => mkWorld (page w) (Some text) (trace w)).

Definition set_page (f : PageState -> PageState) : Handler :=
  Eff.modify (fun w => mkWorld (f (page w)) (clipboard w) (trace w)).

Definition setProject (p : ProjectData) : Handler :=
  set_page (fun s => mkPage (Some p) (cardOrder s) (copySuccess s)).

Definition setCopySuccess (b : bool) : Handler :=
  set_page (fun s => mkPage (project s) (cardOrder s) b).

(** [`project-card-order-${id}`] *)
Definition card_order_storage_key (rid : option string) : string :=
  ("project-card-order-" ++
   match rid with Some s => s | None => "undefined" end)%string.

Section Handlers.
Variable env : Env.

(** Modelled from the spec: the setter returned by [usePersistentState]
    (hooks/usePersistentState, not under src/).  It holds the card-order
    array as local state and writes it to the durable local preference
    store under the key it was created with, on every reorder. *)
Definition setCardOrder (cards : list CardObject) : Handler :=
  set_page (fun s => mkPage (project s) cards (copySuccess s)) ;;
  emit (EvLocalStore (card_order_storage_key (route_id env)) cards).

(** [{ ...card, order_key: `a${index}` }] *)
Definition rekey (card : option CardObject) (index : nat) : CardObject :=
  let k := ("a" ++ Js.number_to_string index)%string in
  match card with
  | Some (FullCard c) => FullCard (mkCard (id c) (type c) (title c) k)
  | Some (OrderKeyOnly _) => OrderKeyOnly k
  | None => OrderKeyOnly k
  end.

(** The array computed by [handleCardReorder] before it is stored. *)
Definition reordered (cards : list CardObject) (oldIndex newIndex : Z)
    : list CardObject :=
  let newOrder := map Some cards in
  let '(removedItems, newOrder) := Js.splice newOrder oldIndex 1 [] in
  let removed := hd None removedItems in
  let '(_, newOrder) := Js.splice newOrder newIndex 0 [removed] in
  Js.mapi rekey newOrder.

(** [handleCardReorder]; [snapshot] is the state the callback closed
    over. *)
Definition handleCardReorder (snapshot : PageState)
    (oldIndex newIndex : Z) : Handler :=
  let updatedOrder := reordered (cardOrder snapshot) oldIndex newIndex in
  setCardOrder updatedOrder ;;
  match project snapshot with
  | Some p =>
      if Js.truthy (Some (project_id p))
      then emit (EvSaveDashboardCardOrder updatedOrder (project_id p))
      else Eff.ret tt
  | None => Eff.ret tt
  end.

(** The second [try] of [copyToClipboard]: the hidden text area and
    [document.execCommand("copy")]. *)
Definition legacyCopy (text : string) : Eff.M World bool :=
  Eff.try_catch
    (emit (EvExecCommandCopy text (legacy_copy env)) ;;
     match legacy_copy env with
     | ExecCommandReturns true => set_clipboard text ;; Eff.ret true
     | ExecCommandReturns false => Eff.ret false
     | LegacyThrows =>
         Eff.throw (Js.new_Error "execCommand failed")
     end)
    (fun _ => Eff.ret false).

(** [copyToClipboard] *)
Definition copyToClipboard (text : string) : Eff.M World bool :=
  match navigator_clipboard env with
  | NoClipboardApi => legacyCopy text
  | WriteTextResolves =>
      emit (EvClipboardWriteText text true) ;;
      set_clipboard text ;;
      Eff.ret true
  | WriteTextRejects =>
      emit (EvClipboardWriteText text false) ;;
      legacyCopy text
  end.

Definition share_url (shareId : string) : string :=
  (origin env ++ "/share/" ++ shareId)%string.

Definition copy_failed_msg : string :=
  "Failed to copy link to clipboard. Please try again.".

Definition share_failed_msg : string :=
  "Failed to create share link. Please try again.".

(** The inner [try] of [handleShareProject]: the update of the project
    row. *)
Definition persistShareId (p : ProjectData) (shareId : string)
    : Handler :=
  Eff.try_catch
    (emit (EvUpdateShareId (project_id p) shareId (update_answer env)) ;;
     match update_answer env with
     | UpdateOk =>
         setProject
           (mkProject (project_id p) (Some shareId) (other_columns p))
     | UpdateError _ => Eff.ret tt
     | UpdateRejects e => Eff.throw e
     end)
    (fun _ => Eff.ret tt).

(** [handleShareProject]; [snapshot] is the state the handler closed
    over. *)
Definition handleShareProject (snapshot : PageState) : Handler :=
  match project snapshot, user env with
  | Some p, Some _ =>
      Eff.try_catch
        (if Js.truthy (public_share_id p) then
           let shareId :=
             match public_share_id p with Some s => s | None => "" end in
           let publicUrl := share_url shareId in
           success <- copyToClipboard publicUrl ;;
           if success : bool then
             setCopySuccess true ;;
             emit (EvSetTimeout 2000)
           else
             emit (EvAlert copy_failed_msg)
         else
           emit (EvRandomUUID (randomUUID env)) ;;
           match randomUUID env with
           | None =>
               Eff.throw (Js.new_Error "crypto.randomUUID failed")
           | Some shareId =>
               let publicUrl := share_url shareId in
               success <- copyToClipboard publicUrl ;;
               if negb success then
                 emit (EvAlert copy_failed_msg)
               else
                 setCopySuccess true ;;
                 emit (EvSetTimeout 2000) ;;
                 persistShareId p shareId
           end)
        (fun _ => emit (EvAlert share_failed_msg))
  | _, _ => Eff.ret tt
  end.

End Handlers.

(** A click: the handler runs on the state it closed over, with the
    clipboard as it was and an empty log. *)
Definition click (h : PageState -> Handler) (st : PageState)
    (cb : option string) : Eff.Completion unit * World :=
  h st (mkWorld st cb []).

Definition run (h : PageState -> Handler) (st : PageState)
    (cb : option string) : World :=
  snd (click h st cb).

End LeaseTrackerPage.

(* ------------------------------------------------------------------ *)
(** ** The data-fetch hook, [useProjectData.ts] *)

Module UseProjectData.

Record UseProjectDataOptions : Type := mkOptions {
  projectId : option string;
  shareId : option string;
  dataType : string
}.

(** [supabase.from(table).select(columns).eq(column, value).order(column,
    { ascending })]; [order_ascending] is [None] where the call passes no
    options. *)
Record Query : Type := mkQuery {
  from : string;
  select : string;
  eq_column : string;
  eq_value : string;
  order_column : string;
  order_ascending : option bool
}.

(** A request to the backend: [supabase.rpc(fn, { share_id })] or a direct
    table query. *)
Inductive Call : Type :=
| Rpc (fn : string) (share_id : string)
| Select (q : Query).

Section Hook.
(** The row type [T] of the hook, with the order key a row carries. *)
Variable T : Type.
Variable row_order_key : T -> string.

(** The object a backend request resolves to: [{ data, error }]. *)
Record Response : Type := mkResponse {
  res_data : option (list T);
  res_error : option Js.Thrown
}.

(** An awaited backend request resolves or rejects. *)
Inductive Await : Type :=
| Resolves (r : Response)
| Rejects (x : Js.Thrown).

Record Env : Type := mkEnv {
  user : option string;               (* useUser().user *)
  backend : Call -> Await             (* what supabase answers *)
}.

(** The three [useState] cells of the hook. *)
Record HookState : Type := mkState {
  data : list T;
  loading : bool;
  error : option string
}.

Record World : Type := mkWorld {
  hook : HookState;
  calls : list Call
}.

Definition initial_state : HookState := mkState [] true None.

Definition Fetch := Eff.M World.

Definition setData (d : list T) : Fetch unit :=
  Eff.modify (fun w =>
    mkWorld (mkState d (loading (hook w)) (error (hook w))) (calls w)).

Definition setLoading (b : bool) : Fetch unit :=
  Eff.modify (fun w =>
    mkWorld (mkState (data (hook w)) b (error (hook w))) (calls w)).

Definition setError (e : option string) : Fetch unit :=
  Eff.modify (fun w =>
    mkWorld (mkState (data (hook w)) (loading (hook w)) e) (calls w)).

(** Modelled from the spec: [sortByOrderKey] of utils/orderKey (not
    under src/).  The spec has it re-sort the rows ascending by order
    key, the order key being a string compared lexicographically; rows
    with equal keys keep their order. *)
Fixpoint insertByOrderKey (x : T) (l : list T) : list T :=
  match l with
  | [] => [x]
  | y :: l' =>
      if (row_order_key y <? row_order_key x)%string
      then y :: insertByOrderKey x l'
      else x :: l
  end.

Fixpoint sortByOrderKey (l : list T) : list T :=
  match l with
  | [] => []
  | x :: l' => insertByOrderKey x (sortByOrderKey l')
  end.

Section Fetch.
Variable env : Env.
Variable opts : UseProjectDataOptions.

Definition isPublicMode : bool := Js.truthy (shareId opts).

Definition isAuthenticatedMode : bool :=
  Js.truthy (projectId opts) &&
  match user env with Some _ => true | None => false end.

(** [await] of a backend request: the request is logged, a rejection
    is thrown. *)
Definition await (c : Call) : Fetch (option Response) :=
  Eff.modify (fun w => mkWorld (hook w) (calls w ++ [c])) ;;
  match backend env c with
  | Resolves r => Eff.ret (Some r)
  | Rejects x => Eff.throw x
  end.

Definition unsupported : Js.Thrown :=
  Js.new_Error ("Unsupported data type: " ++ dataType opts)%string.

(** The [switch] of public mode. *)
Definition publicRequest (sid : string) : Fetch (option Response) :=
  let dt := dataType opts in
  if (dt =? "updates")%string then
    await (Rpc "get_public_project_updates" sid)
  else if (dt =? "properties")%string then
    await (Rpc "get_public_properties" sid)
  else if (dt =? "roadmap")%string then
    await (Rpc "get_public_project_roadmap" sid)
  else if (dt =? "documents")%string then
    await (Rpc "get_public_project_documents" sid)
  else if (dt =? "requirements")%string then
    await (Rpc "get_public_client_requirements" sid)
  else if (dt =? "client_tour_availability")%string then
    await (Rpc "get_public_client_tour_availability" sid)
  else Eff.throw unsupported.

(** The [switch] of authenticated mode. *)
Definition authenticatedRequest (pid : string)
    : Fetch (option Response) :=
  let dt := dataType opts in
  if (dt =? "updates")%string then
    await (Select (mkQuery "project_updates" "*" "project_id" pid
                     "update_date" (Some false)))
  else if (dt =? "properties")%string then
    await (Select (mkQuery "properties" "*" "project_id" pid
                     "order_key" (Some true)))
  else if (dt =? "roadmap")%string then
    await (Select (mkQuery "project_roadmap" "*" "project_id" pid
                     "order_key" (Some true)))
  else if (dt =? "documents")%string then
    await (Select (mkQuery "project_documents" "*" "project_id" pid
                     "order_key" (Some true)))
  else if (dt =? "requirements")%string then
    await (Select (mkQuery "client_requirements" "*" "project_id" pid
                     "category" None))
  else if (dt =? "client_tour_availability")%string then
    await (Select (mkQuery "client_tour_availability" "*" "project_id"
                     pid "proposed_datetime" (Some true)))
  else Eff.throw unsupported.

(** The tags of the [dataType] union. *)
Definition recognized : list string :=
  ["updates"; "properties"; "roadmap"; "documents"; "requirements";
   "client_tour_availability"]%string.

Definition orderable (dt : string) : bool :=
  (dt =? "properties")%string || (dt =? "roadmap")%string
  || (dt =? "documents")%string.

(** The body of the [try] block. *)
Definition fetchBody : Fetch unit :=
  setError None ;;
  result <-
    match Js.and_string isPublicMode (shareId opts) with
    | Some sid => publicRequest sid
    | None =>
        match Js.and_string isAuthenticatedMode (projectId opts) with
        | Some pid => authenticatedRequest pid
        | None => Eff.ret None
        end
    end ;;
  match result with
  | Some (mkResponse _ (Some e)) => Eff.throw e
  | _ =>
      let d :=
        match result with
        | Some (mkResponse (Some rows) _) => rows
        | _ => []
        end in
      let d := if orderable (dataType opts) then sortByOrderKey d
               else d in
      setData d
  end.

(** [fetchData] *)
Definition fetchData : Fetch unit :=
  if negb isPublicMode && negb isAuthenticatedMode then
    setLoading false
  else
    Eff.try_finally
      (Eff.try_catch fetchBody
         (fun err =>
            setError
              (Some (if Js.instanceof_Error err then Js.message err
                     else "An error occurred"))))
      (setLoading false).

(** One fetch attempt on a given hook state. *)
Definition fetch_from (st : HookState) : World :=
  Eff.exec fetchData (mkWorld st []).

(** Invoking the hook: the state cells start at their initial values
    and the effect runs [fetchData] once. *)
Definition useProjectData : World := fetch_from initial_state.

End Fetch.
End Hook.

Arguments mkResponse {T} _ _.
Arguments res_data {T} _.
Arguments res_error {T} _.
Arguments Resolves {T} _.
Arguments Rejects {T} _.
Arguments mkEnv {T} _ _.
Arguments user {T} _.
Arguments backend {T} _ _.
Arguments mkState {T} _ _ _.
Arguments data {T} _.
Arguments loading {T} _.
Arguments error {T} _.
Arguments mkWorld {T} _ _.
Arguments hook {T} _.
Arguments calls {T} _.
Arguments initial_state {T}.
Arguments fetch_from {T} _ _ _ _.
Arguments useProjectData {T} _ _ _.
Arguments sortByOrderKey {T} _ _.
Arguments insertByOrderKey {T} _ _ _.

End UseProjectData.

(* ------------------------------------------------------------------ *)
(** ** What one fetch attempt does, read off the options *)

Module FetchPlan.
Import UseProjectData.

(** Ascending order of two rows by order key. *)
Definition key_le {T : Type} (key : T -> string) (a b : T) : Prop :=
  (key a <=? key b)%string = true.

(** The remote procedure of a data-type tag. *)
Definition public_fn (dt : string) : option string :=
  if (dt =? "updates")%string then Some "get_public_project_updates"
  else if (dt =? "properties")%string then Some "get_public_properties"
  else if (dt =? "roadmap")%string then Some "get_public_project_roadmap"
  else if (dt =? "documents")%string
    then Some "get_public_project_documents"
  else if (dt =? "requirements")%string
    then Some "get_public_client_requirements"
  else if (dt =? "client_tour_availability")%string
    then Some "get_public_client_tour_availability"
  else None.

(** The table, sort column and sort direction of a data-type tag. *)
Definition table_query (dt pid : string) : option Query :=
  if (dt =? "updates")%string then
    Some (mkQuery "project_updates" "*" "project_id" pid
            "update_date" (Some false))
  else if (dt =? "properties")%string then
    Some (mkQuery "properties" "*" "project_id" pid
            "order_key" (Some true))
  else if (dt =? "roadmap")%string then
    Some (mkQuery "project_roadmap" "*" "project_id" pid
            "order_key" (Some true))
  else if (dt =? "documents")%string then
    Some (mkQuery "project_documents" "*" "project_id" pid
            "order_key" (Some true))
  else if (dt =? "requirements")%string then
    Some (mkQuery "client_requirements" "*" "project_id" pid
            "category" None)
  else if (dt =? "client_tour_availability")%string then
    Some (mkQuery "client_tour_availability" "*" "project_id" pid
            "proposed_datetime" (Some true))
  else None.

Inductive Plan : Type :=
| NoOp
| Unsupported
| Request (c : Call).

Section Plan.
Context {T : Type}.
Variable key : T -> string.
Variable env : Env T.
Variable opts : UseProjectDataOptions.

Definition plan : Plan :=
  match Js.and_string (isPublicMode opts) (shareId opts) with
  | Some sid =>
      match public_fn (dataType opts) with
      | Some fn => Request (Rpc fn sid)
      | None => Unsupported
      end
  | None =>
      match Js.and_string (isAuthenticatedMode T env opts)
              (projectId opts) with
      | Some pid =>
          match table_query (dataType opts) pid with
          | Some q => Request (Select q)
          | None => Unsupported
          end
      | None => NoOp
      end
  end.

(** The message [catch] stores for a thrown value. *)
Definition caught_message (x : Js.Thrown) : string :=
  if Js.instanceof_Error x then Js.message x else "An error occurred".

Definition failed (st : HookState T) (msg : string) (cs : list Call)
    : World T :=
  mkWorld (mkState (data st) false (Some msg)) cs.

(** The world after the attempt, by plan and backend answer. *)
Definition settle (st : HookState T) (p : Plan) : World T :=
  match p with
  | NoOp => mkWorld (mkState (data st) false (error st)) []
  | Unsupported =>
      failed st ("Unsupported data type: " ++ dataType opts)%string []
  | Request c =>
      match backend env c with
      | Resolves (mkResponse d None) =>
          let rows := match d with Some rows => rows | None => [] end in
          mkWorld
            (mkState
               (if orderable (dataType opts)
                then sortByOrderKey key rows else rows)
               false None)
            [c]
      | Resolves (mkResponse _ (Some e)) =>
          failed st (caught_message e) [c]
      | Rejects x => failed st (caught_message x) [c]
      end
  end.

End Plan.

End FetchPlan.

(* ------------------------------------------------------------------ *)
(** ** Sample inputs *)

Module Samples.
Import UseProjectData.

(** A row: its identifier and its order key. *)
Definition Row : Type := string * string.

Definition unsorted_rows : list Row :=
  [("p1", "a2"); ("p2", "a0"); ("p3", "a1")]%string.

Definition kept_rows : list Row :=
  [("p1", "a0"); ("p2", "a1")]%string.

(** A signed-in user and a backend that returns the unsorted rows. *)
Definition env_ok : Env Row :=
  mkEnv (Some "user_1"%string)
    (fun _ => Resolves (mkResponse (Some unsorted_rows) None)).

(** A signed-in user and a backend that answers with an error object. *)
Definition env_error : Env Row :=
  mkEnv (Some "user_1"%string)
    (fun _ => Resolves
       (mkResponse None (Some (Js.mkThrown false "permission denied")))).

(** Nobody signed in. *)
Definition env_anonymous : Env Row :=
  mkEnv None (fun _ => Resolves (mkResponse (Some unsorted_rows) None)).

Definition by_project (dt : string) : UseProjectDataOptions :=
  mkOptions (Some "proj_1"%string) None dt.

Definition by_share (dt : string) : UseProjectDataOptions :=
  mkOptions None (Some "share_1"%string) dt.

Definition by_both (dt : string) : UseProjectDataOptions :=
  mkOptions (Some "proj_1"%string) (Some "share_1"%string) dt.

(** A page whose project has no share identifier yet, and one whose
    project already has one. *)
Definition fresh_project : LeaseTrackerPage.ProjectData :=
  LeaseTrackerPage.mkProject "proj_1" None [("title", "Harbor lease")]%string.

Definition shared_project : LeaseTrackerPage.ProjectData :=
  LeaseTrackerPage.mkProject "proj_1" (Some "abc123"%string)
    [("title", "Harbor lease")]%string.

Definition page_of (p : LeaseTrackerPage.ProjectData)
    : LeaseTrackerPage.PageState :=
  LeaseTrackerPage.mkPage (Some p) LeaseTrackerPage.DEFAULT_CARD_ORDER
    false.

(** A browser whose primary clipboard API rejects, with the legacy copy
    answering [legacy]; the update of the project row is rejected. *)
Definition browser (legacy : LeaseTrackerPage.LegacyCopy)
    : LeaseTrackerPage.Env :=
  LeaseTrackerPage.mkEnv (Some "proj_1"%string) (Some "user_1"%string)
    "https://app.example"%string LeaseTrackerPage.WriteTextRejects
    legacy (Some "uuid-1"%string)
    (LeaseTrackerPage.UpdateRejects (Js.new_Error "network")).

End Samples.

(* ------------------------------------------------------------------ *)
(** ** Reading the log of a share *)

Module ShareLog.
Import LeaseTrackerPage.

(** The text an event tried to put on the clipboard. *)
Definition copy_attempt (e : Event) : option string :=
  match e with
  | EvClipboardWriteText text _ => Some text
  | EvExecCommandCopy text _ => Some text
  | _ => None
  end.

(** The event put [text] on the clipboard. *)
Definition copied (text : string) (e : Event) : Prop :=
  e = EvClipboardWriteText text true \/
  e = EvExecCommandCopy text (ExecCommandReturns true).

Definition is_update (e : Event) : bool :=
  match e with EvUpdateShareId _ _ _ => true | _ => false end.

Definition is_alert (e : Event) : bool :=
  match e with EvAlert _ => true | _ => false end.

Definition is_randomUUID (e : Event) : bool :=
  match e with EvRandomUUID _ => true | _ => false end.

(** No event of the log satisfies [f]. *)
Definition none_of (f : Event -> bool) (log : list Event) : Prop :=
  Forall (fun e => f e = false) log.

End ShareLog.

(* ------------------------------------------------------------------ *)
(** ** Reordering a list, as the specification words it *)

Module Reorder.

(** The list without the element at position [i]. *)
Fixpoint remove_at {A : Type} (i : nat) (l : list A) : list A :=
  match l, i with
  | [], _ => []
  | _ :: l', 0 => l'
  | x :: l', S i' => x :: remove_at i' l'
  end.

(** The list with [x] put at position [j]. *)
Fixpoint insert_at {A : Type} (j : nat) (x : A) (l : list A) : list A :=
  match j, l with
  | 0, _ => x :: l
  | S _, [] => [x]
  | S j', y :: l' => y :: insert_at j' x l'
  end.

(** Removing the element at index [i] and reinserting it at index [j]. *)
Definition move {A : Type} (i j : nat) (l : list A) : list A :=
  match nth_error l i with
  | Some x => insert_at j x (remove_at i l)
  | None => l
  end.

(** The order key of display position [k]: [a<k>]. *)
Definition sequential_key (k : nat) : string :=
  String "a" (Js.number_to_string k).

End Reorder.

(* ------------------------------------------------------------------ *)
(** ** Loading the project, the effect and the rendered view *)

Module ProjectLoad.
Import LeaseTrackerPage.

(** The [Json] column type of the database. *)
#[local] Unset Elimination Schemes.
Inductive Json : Type :=
| JNull
| JBool (b : bool)
| JNumber (n : Z)
| JString (s : string)
| JArray (items : list Json)
| JObject (fields : list (string * Json)).
#[local] Set Elimination Schemes.

(** Truthiness of a stored value. *)
Definition json_truthy (v : Json) : bool :=
  match v with
  | JNull => false
  | JBool b => b
  | JNumber n => negb (n =? 0)%Z
  | JString s => negb (s =? "")%string
  | JArray _ => true
  | JObject _ => true
  end.

(** [typeof card === "object" && card !== null && "order_key" in card] *)
Definition has_order_key (card : Json) : bool :=
  match card with
  | JObject fields =>
      existsb (fun kv => (fst kv =? "order_key")%string) fields
  | _ => false
  end.

(** [needsMigration], computed in [fetchProject] from the stored order. *)
Definition needsMigration (stored : Json) : bool :=
  match stored with
  | JArray items => negb (forallb has_order_key items)
  | _ => true
  end.

(** The row [fetchProject] reads: the project columns and the stored
    dashboard card order. *)
Record ProjectRow : Type := mkRow {
  row_project : ProjectData;
  dashboard_card_order : Json
}.

(** The answer of [.from("projects").select("*").eq("id", id)
    .is("deleted_at", null).single()]: a row, an error object, neither, or a
    rejected request. *)
Inductive SelectAnswer : Type :=
| SelectRow (row : ProjectRow)
| SelectError (e : Js.Thrown)
| SelectNothing
| SelectRejects (e : Js.Thrown).

Record LoadEnv : Type := mkLoadEnv {
  handlers_env : Env;                    (* route id, user, browser *)
  isLoaded : bool;                       (* useUser().isLoaded *)
  select_answer : SelectAnswer
}.

Inductive LoadEvent : Type :=
| EvSelectProject (id : string)
| EvNavigate (path : string)
| EvPage (e : Event).

(** The state cells of the component with the log of what left it. *)
Record PageWorld : Type := mkPageWorld {
  shown : PageState;
  board : option string;                 (* the system clipboard *)
  page_loading : bool;
  page_error : option string;
  log : list LoadEvent
}.

Definition Load := Eff.M PageWorld.

Definition note (e : LoadEvent) : Load unit :=
  Eff.modify (fun w =>
    mkPageWorld (shown w) (board w) (page_loading w) (page_error w)
      (log w ++ [e])).

Definition setPageError (e : option string) : Load unit :=
  Eff.modify (fun w =>
    mkPageWorld (shown w) (board w) (page_loading w) e (log w)).

Definition setPageLoading (b : bool) : Load unit :=
  Eff.modify (fun w =>
    mkPageWorld (shown w) (board w) b (page_error w) (log w)).

(** A setter or handler of the page, run on the cells of the component. *)
Definition liftPage {A : Type} (m : Eff.M World A) : Load A :=
  fun w =>
    let '(c, pw) := m (mkWorld (shown w) (board w) []) in
    (c, mkPageWorld (page pw) (clipboard pw) (page_loading w)
          (page_error w) (log w ++ map EvPage (trace pw))).

(** [setProject(null)] *)
Definition clearProject : Handler :=
  set_page (fun s => mkPage None (cardOrder s) (copySuccess s)).

Section Load.
Variable env : LoadEnv.

(** [migrateDashboardCardOrder] of utils/dashboardCards (not under src/):
    taken as it is, a function of the stored order and the default order. *)
Variable migrateDashboardCardOrder :
  Json -> list CardObject -> list CardObject.

Definition load_failed_msg : string := "Failed to load project".

Definition unexpected_msg : string := "An unexpected error occurred".

(** The body of the [try] block of [fetchProject]. *)
Definition fetchProjectBody (id : string) : Load unit :=
  note (EvSelectProject id) ;;
  match select_answer env with
  | SelectRejects e => Eff.throw e
  | SelectError _ => setPageError (Some load_failed_msg)
  | SelectNothing =>
      liftPage clearProject ;;
      Eff.throw (Js.new_Error "Cannot read properties of null")
  | SelectRow data =>
      liftPage (setProject (row_project data)) ;;
      let migratedCardOrder :=
        migrateDashboardCardOrder (dashboard_card_order data)
          DEFAULT_CARD_ORDER in
      liftPage (setCardOrder (handlers_env env) migratedCardOrder) ;;
      if json_truthy (dashboard_card_order data) then
        if needsMigration (dashboard_card_order data) then
          note (EvPage (EvSaveDashboardCardOrder migratedCardOrder
                          (project_id (row_project data))))
        else Eff.ret tt
      else Eff.ret tt
  end.

(** [fetchProject] *)
Definition fetchProject : Load unit :=
  if negb (Js.truthy (route_id (handlers_env env))) then Eff.ret tt
  else
    let id := match route_id (handlers_env env) with
              | Some s => s | None => ""%string end in
    Eff.try_finally
      (Eff.try_catch (fetchProjectBody id)
         (fun _ => setPageError (Some unexpected_msg)))
      (setPageLoading false).

Definition signed_in : bool :=
  match user (handlers_env env) with Some _ => true | None => false end.

(** The effect on [isLoaded], [user] and [id]. *)
Definition authEffect : Load unit :=
  if isLoaded env && signed_in && Js.truthy (route_id (handlers_env env))
  then fetchProject
  else if isLoaded env && negb signed_in then note (EvNavigate "/")
  else Eff.ret tt.

(** What the component returns. *)
Inductive View : Type :=
| Spinner
| ProjectNotFound (text : string)
| Dashboard (p : ProjectData) (cards : list CardObject) (copied : bool).

Definition not_found_text : string :=
  "The project you're looking for doesn't exist or you don't have permission to view it.".

Definition view (w : PageWorld) : View :=
  if negb (isLoaded env) || page_loading w then Spinner
  else
    match (if Js.truthy (page_error w) then page_error w else None),
          project (shown w) with
    | Some e, _ => ProjectNotFound e
    | None, None => ProjectNotFound not_found_text
    | None, Some p =>
        Dashboard p (cardOrder (shown w)) (copySuccess (shown w))
    end.

End Load.

(** The cells at mount: no project, loading, no error; the card order is
    what the persistent state holds. *)
Definition mounted (cards : list CardObject) (cb : option string)
    : PageWorld :=
  mkPageWorld (mkPage None cards false) cb true None [].

(** [renderCard]: the component of a card, with its key and project. *)
Inductive Component : Type :=
| RecentUpdates
| ClientTourAvailabilityCard
| PropertiesOfInterest
| ProjectRoadmap
| ProjectDocuments.

Record Element : Type := mkElement {
  component : Component;
  element_key : string;
  element_projectId : string
}.

Definition renderCard (current : option ProjectData) (card : CardObject)
    : option Element :=
  match current with
  | None => None
  | Some p =>
      match card with
      | FullCard c =>
          Some (mkElement
                  match type c with
                  | updates => RecentUpdates
                  | availability => ClientTourAvailabilityCard
                  | properties => PropertiesOfInterest
                  | roadmap => ProjectRoadmap
                  | documents => ProjectDocuments
                  end
                  (id c) (project_id p))
      | OrderKeyOnly _ => None
      end
  end.

End ProjectLoad.

(* ------------------------------------------------------------------ *)
(** ** Sample inputs for loading *)

Module LoadSamples.
Import LeaseTrackerPage ProjectLoad.

(** A stored order in the legacy shape: entries without [order_key]. *)
Definition legacy_order : Json :=
  JArray [JObject [("id", JString "roadmap")]%string;
          JObject [("id", JString "updates")]%string].

(** A stored order in the current shape. *)
Definition current_order : Json :=
  JArray [JObject [("id", JString "roadmap");
                   ("order_key", JString "a0")]%string;
          JObject [("id", JString "updates");
                   ("order_key", JString "a1")]%string].

(** A stand-in for the migration: the default order whatever is stored. *)
Definition default_order (stored : Json) (default : list CardObject)
    : list CardObject :=
  default.

Definition row_with (stored : Json) : ProjectRow :=
  mkRow Samples.fresh_project stored.

(** A browser with nobody signed in. *)
Definition signed_out : Env :=
  mkEnv (Some "proj_1"%string) None "https://app.example"%string
    WriteTextResolves (ExecCommandReturns true) (Some "uuid-1"%string)
    UpdateOk.

(** A browser in which [crypto.randomUUID] is missing. *)
Definition no_randomUUID : Env :=
  mkEnv (Some "proj_1"%string) (Some "user_1"%string)
    "https://app.example"%string WriteTextResolves
    (ExecCommandReturns true) None UpdateOk.

(** A browser without [navigator.clipboard] whose legacy copy throws. *)
Definition no_clipboard_api : Env :=
  mkEnv (Some "proj_1"%string) (Some "user_1"%string)
    "https://app.example"%string NoClipboardApi LegacyThrows
    (Some "uuid-1"%string) UpdateOk.

(** A browser in which everything works. *)
Definition working : Env :=
  mkEnv (Some "proj_1"%string) (Some "user_1"%string)
    "https://app.example"%string WriteTextResolves
    (ExecCommandReturns true) (Some "uuid-1"%string) UpdateOk.

Definition signed_in_with (answer : SelectAnswer) : LoadEnv :=
  mkLoadEnv working true answer.

Definition signed_out_loaded : LoadEnv :=
  mkLoadEnv signed_out true SelectNothing.

End LoadSamples.

(* ------------------------------------------------------------------ *)
(** ** Comparing order keys *)

Module KeyOrder.

(** Strictly before, in the lexicographic order of strings. *)
Definition key_lt (a b : string) : Prop := (a <? b)%string = true.

End KeyOrder.

(* ------------------------------------------------------------------ *)
(** ** Facts about the JavaScript primitives *)

Section JsFacts.
Context {A B : Type}.

Lemma remove_at_firstn_skipn (i : nat) (l : list A) :
  Reorder.remove_at i l = firstn i l ++ skipn (S i) l.
Proof.
  revert i; induction l as [|x l IH]; intros [|i]; simpl; trivial.
  now rewrite IH.
Qed.

Lemma insert_at_firstn_skipn (j : nat) (x : A) (l : list A) :
  j <= length l ->
  Reorder.insert_at j x l = firstn j l ++ x :: skipn j l.
Proof.
  revert j; induction l as [|y l IH]; intros [|j] Hj; simpl in *;
    trivial; try lia.
  rewrite IH by lia; reflexivity.
Qed.

Lemma remove_at_length (i : nat) (l : list A) :
  i < length l -> S (length (Reorder.remove_at i l)) = length l.
Proof.
  revert i; induction l as [|x l IH]; intros [|i] Hi; simpl in *;
    try lia.
  rewrite IH; lia.
Qed.

Lemma insert_at_length (j : nat) (x : A) (l : list A) :
  length (Reorder.insert_at j x l) = S (length l).
Proof.
  revert j; induction l as [|y l IH]; intros [|j]; simpl; trivial.
  now rewrite IH.
Qed.

Lemma move_length (i j : nat) (l : list A) :
  i < length l -> length (Reorder.move i j l) = length l.
Proof.
  intros Hi; unfold Reorder.move.
  destruct (nth_error l i) eqn:E.
  - rewrite insert_at_length. now apply remove_at_length.
  - reflexivity.
Qed.

(** Deleting one element at a position inside the array. *)
Lemma splice_delete_one (l : list A) (i : Z) :
  (0 <= i < Z.of_nat (length l))%Z ->
  Js.splice l i 1 [] =
    (firstn 1 (skipn (Z.to_nat i) l),
     Reorder.remove_at (Z.to_nat i) l).
Proof.
  intros Hi; unfold Js.splice.
  destruct (Z.ltb_spec i 0) as [?|_]; [lia|].
  rewrite remove_at_firstn_skipn; simpl.
  replace (Z.min i (Z.of_nat (length l))) with i by lia.
  replace (Z.to_nat (Z.min (Z.max 1 0) (Z.of_nat (length l) - i)))
    with 1 by lia.
  now rewrite Nat.add_1_r.
Qed.

(** Inserting one element at a position up to the end of the array. *)
Lemma splice_insert_one (l : list A) (j : Z) (x : A) :
  (0 <= j <= Z.of_nat (length l))%Z ->
  Js.splice l j 0 [x] = ([], Reorder.insert_at (Z.to_nat j) x l).
Proof.
  intros Hj; unfold Js.splice.
  destruct (Z.ltb_spec j 0) as [?|_]; [lia|].
  rewrite insert_at_firstn_skipn by lia.
  replace (Z.min j (Z.of_nat (length l))) with j by lia.
  replace (Z.to_nat (Z.min (Z.max 0 0) (Z.of_nat (length l) - j)))
    with 0 by lia.
  now rewrite Nat.add_0_r.
Qed.

Lemma mapi_from_length (f : A -> nat -> B) (k : nat) (l : list A) :
  length (Js.mapi_from f k l) = length l.
Proof. revert k; induction l; simpl; auto. Qed.

Lemma mapi_from_nth_error (f : A -> nat -> B) (k n : nat) (l : list A) :
  nth_error (Js.mapi_from f k l) n =
    option_map (fun x => f x (k + n)) (nth_error l n).
Proof.
  revert k n; induction l as [|x l IH]; intros k [|n]; simpl; trivial.
  - now rewrite Nat.add_0_r.
  - rewrite IH. now rewrite Nat.add_succ_r.
Qed.

Lemma mapi_from_map {C : Type} (g : C -> A) (f : A -> nat -> B) (k : nat)
    (l : list C) :
  Js.mapi_from f k (map g l) = Js.mapi_from (fun x => f (g x)) k l.
Proof. revert k; induction l; simpl; intros; f_equal; auto. Qed.

Lemma map_mapi_from {C : Type} (g : B -> C) (f : A -> nat -> B) (k : nat)
    (l : list A) :
  map g (Js.mapi_from f k l) = Js.mapi_from (fun x n => g (f x n)) k l.
Proof. revert k; induction l; simpl; intros; f_equal; auto. Qed.

Lemma mapi_from_ext (f g : A -> nat -> B) (k : nat) (l : list A) :
  (forall x n, f x n = g x n) ->
  Js.mapi_from f k l = Js.mapi_from g k l.
Proof.
  intros E; revert k; induction l; simpl; intros; f_equal; auto.
Qed.

Lemma mapi_from_const (f : A -> B) (k : nat) (l : list A) :
  Js.mapi_from (fun x _ => f x) k l = map f l.
Proof. revert k; induction l; simpl; intros; f_equal; auto. Qed.

Lemma remove_at_map (f : A -> B) (i : nat) (l : list A) :
  Reorder.remove_at i (map f l) = map f (Reorder.remove_at i l).
Proof.
  revert i; induction l as [|x l IH]; intros [|i]; simpl; trivial.
  now rewrite IH.
Qed.

Lemma insert_at_map (f : A -> B) (j : nat) (x : A) (l : list A) :
  Reorder.insert_at j (f x) (map f l) = map f (Reorder.insert_at j x l).
Proof.
  revert j; induction l as [|y l IH]; intros [|j]; simpl; trivial.
  now rewrite IH.
Qed.

Lemma hd_firstn_skipn (d : A) (i : nat) (l : list A) :
  hd d (firstn 1 (skipn i l)) = nth i l d.
Proof.
  revert i; induction l as [|x l IH]; intros [|i]; simpl; trivial.
  apply IH.
Qed.

End JsFacts.

(* ------------------------------------------------------------------ *)
(** ** Card reordering *)

Section CardReorder.
Import LeaseTrackerPage.
Variable env : Env.

Lemma mapi_from_index_only {A B : Type} (f : nat -> B) (k : nat)
    (l : list A) :
  Js.mapi_from (fun _ n => f n) k l = map f (seq k (length l)).
Proof. revert k; induction l; simpl; intros; f_equal; auto. Qed.

Lemma rekey_order_key (c : option CardObject) (k : nat) :
  card_order_key (rekey c k) = Reorder.sequential_key k.
Proof. destruct c as [[c|s]|]; reflexivity. Qed.

Lemma rekey_content (c : CardObject) (k : nat) :
  card_content (rekey (Some c) k) = card_content c.
Proof. destruct c; reflexivity. Qed.

(** The two [splice] calls are a move, when both positions are inside
    the array. *)
Lemma reordered_move (cards : list CardObject) (i j : Z) :
  (0 <= i < Z.of_nat (length cards))%Z ->
  (0 <= j < Z.of_nat (length cards))%Z ->
  reordered cards i j =
    Js.mapi (fun c k => rekey (Some c) k)
      (Reorder.move (Z.to_nat i) (Z.to_nat j) cards).
Proof.
  intros Hi Hj; unfold reordered.
  rewrite splice_delete_one by (rewrite length_map; lia).
  rewrite hd_firstn_skipn.
  assert (Hlt : Z.to_nat i < length cards) by lia.
  destruct (nth_error cards (Z.to_nat i)) as [x|] eqn:Ex;
    [|apply nth_error_None in Ex; lia].
  pose proof (remove_at_length (Z.to_nat i) cards Hlt) as Hlen.
  rewrite splice_insert_one
    by (rewrite remove_at_map, length_map; lia).
  rewrite (nth_error_nth _ _ None (map_nth_error Some _ _ Ex)).
  rewrite remove_at_map, insert_at_map.
  unfold Js.mapi, Reorder.move; rewrite Ex.
  apply mapi_from_map.
Qed.

(** What [handleCardReorder] leaves in the card-order state. *)
Lemma handleCardReorder_state (st : PageState) (cb : option string)
    (i j : Z) :
  cardOrder (page (run (fun s => handleCardReorder env s i j) st cb))
  = reordered (cardOrder st) i j.
Proof.
  unfold run, click, handleCardReorder.
  destruct (project st) as [p|]; simpl.
  - destruct (project_id p); reflexivity.
  - reflexivity.
Qed.

(** C1. Reordering a list of N cards with both positions valid gives the
    cards in the order obtained by removing the element at index [i] and
    reinserting it at index [j]; the card at display position [k] carries
    the order key [a<k>], so the keys read a0..a(N-1) in display order;
    and this list is what the card-order state holds afterwards. *)
Theorem handleCardReorder_moves_and_rekeys
    (st : PageState) (cb : option string) (i j : Z) :
  (0 <= i < Z.of_nat (length (cardOrder st)))%Z ->
  (0 <= j < Z.of_nat (length (cardOrder st)))%Z ->
  let shown :=
    cardOrder (page (run (fun s => handleCardReorder env s i j) st cb))
  in
  map card_content shown =
    map card_content
      (Reorder.move (Z.to_nat i) (Z.to_nat j) (cardOrder st))
  /\ length shown = length (cardOrder st)
  /\ map card_order_key shown =
       map Reorder.sequential_key (seq 0 (length (cardOrder st)))
  /\ (forall k, k < length (cardOrder st) ->
      option_map card_order_key (nth_error shown k)
      = Some (Reorder.sequential_key k)).
Proof.
  intros Hi Hj shown; subst shown.
  rewrite handleCardReorder_state, reordered_move by assumption.
  unfold Js.mapi.
  assert (Hlen : length (Reorder.move (Z.to_nat i) (Z.to_nat j)
                           (cardOrder st)) = length (cardOrder st))
    by (apply move_length; lia).
  repeat split.
  - rewrite map_mapi_from.
    rewrite (mapi_from_ext _ (fun c _ => card_content c))
      by (intros; apply rekey_content).
    apply mapi_from_const.
  - now rewrite mapi_from_length.
  - rewrite map_mapi_from, <- Hlen.
    rewrite (mapi_from_ext _ (fun _ k => Reorder.sequential_key k))
      by (intros; apply rekey_order_key).
    apply mapi_from_index_only.
  - intros k Hk; rewrite mapi_from_nth_error.
    destruct (nth_error _ k) as [c|] eqn:Ek;
      [|apply nth_error_None in Ek; lia].
    cbn [option_map]; now rewrite rekey_order_key.
Qed.

(** A source position outside the array removes nothing: [undefined] is
    inserted and comes out of the map as an object with an order key only. *)
Example reordered_out_of_range :
  length (reordered DEFAULT_CARD_ORDER 7 1) = 6
  /\ nth_error (reordered DEFAULT_CARD_ORDER 7 1) 1
     = Some (OrderKeyOnly "a1").
Proof. split; reflexivity. Qed.

End CardReorder.

(** The default five cards, the first one dragged to the fourth place. *)
Lemma handleCardReorder_moves_and_rekeys_witness :
  let env := LeaseTrackerPage.mkEnv (Some "7"%string) (Some "u"%string)
               "https://app.example"%string
               LeaseTrackerPage.WriteTextResolves
               (LeaseTrackerPage.ExecCommandReturns true)
               (Some "uuid-1"%string) LeaseTrackerPage.UpdateOk in
  let st := LeaseTrackerPage.mkPage None
              LeaseTrackerPage.DEFAULT_CARD_ORDER false in
  let shown :=
    LeaseTrackerPage.cardOrder
      (LeaseTrackerPage.page
         (LeaseTrackerPage.run
            (fun s => LeaseTrackerPage.handleCardReorder env s 0 3)
            st None)) in
  map LeaseTrackerPage.card_content shown =
    map LeaseTrackerPage.card_content
      (Reorder.move 0 3 LeaseTrackerPage.DEFAULT_CARD_ORDER)
  /\ length shown = 5
  /\ map LeaseTrackerPage.card_order_key shown =
       ["a0"; "a1"; "a2"; "a3"; "a4"]%string
  /\ (forall k, k < 5 ->
      option_map LeaseTrackerPage.card_order_key (nth_error shown k)
      = Some (Reorder.sequential_key k)).
Proof.
  intros env st.
  apply (handleCardReorder_moves_and_rekeys env st None 0 3);
    simpl; lia.
Defined.

(* ------------------------------------------------------------------ *)
(** ** Lexicographic order on strings *)

Section StringOrder.

Lemma ascii_compare_lt_trans (a b c : ascii) :
  Ascii.compare a b = Lt -> Ascii.compare b c = Lt ->
  Ascii.compare a c = Lt.
Proof.
  unfold Ascii.compare; rewrite !N.compare_lt_iff; apply N.lt_trans.
Qed.

Lemma string_leb_trans (a b c : string) :
  (a <=? b)%string = true -> (b <=? c)%string = true ->
  (a <=? c)%string = true.
Proof.
  unfold String.leb; revert b c.
  induction a as [|ca a IH]; intros [|cb b] [|cc c]; simpl;
    try reflexivity; try discriminate.
  destruct (Ascii.compare ca cb) eqn:E1; try discriminate.
  - apply Ascii.compare_eq_iff in E1; subst cb.
    destruct (Ascii.compare ca cc); try discriminate; trivial.
    apply IH.
  - destruct (Ascii.compare cb cc) eqn:E2; try discriminate.
    + apply Ascii.compare_eq_iff in E2; subst cc. now rewrite E1.
    + now rewrite (ascii_compare_lt_trans _ _ _ E1 E2).
Qed.

Lemma string_ltb_leb (a b : string) :
  (a <? b)%string = true -> (a <=? b)%string = true.
Proof.
  unfold String.ltb, String.leb; destruct (String.compare a b);
    trivial; discriminate.
Qed.

Lemma string_not_ltb_leb (a b : string) :
  (a <? b)%string = false -> (b <=? a)%string = true.
Proof.
  unfold String.ltb, String.leb; rewrite (String.compare_antisym a b).
  destruct (String.compare b a); simpl; trivial; discriminate.
Qed.

End StringOrder.

(* ------------------------------------------------------------------ *)
(** ** Sorting by order key *)

Section SortFacts.
Import UseProjectData FetchPlan.
Context {T : Type}.
Variable key : T -> string.

Lemma key_le_trans (a b c : T) :
  key_le key a b -> key_le key b c -> key_le key a c.
Proof. apply string_leb_trans. Qed.

Lemma insertByOrderKey_perm (x : T) (l : list T) :
  Permutation (x :: l) (insertByOrderKey key x l).
Proof.
  induction l as [|y l IH]; simpl; [reflexivity|].
  destruct (key y <? key x)%string; [|reflexivity].
  rewrite perm_swap. now constructor.
Qed.

Lemma sortByOrderKey_perm (l : list T) :
  Permutation l (sortByOrderKey key l).
Proof.
  induction l as [|x l IH]; simpl; [constructor|].
  rewrite <- insertByOrderKey_perm. now constructor.
Qed.

Lemma insertByOrderKey_sorted (x : T) (l : list T) :
  StronglySorted (key_le key) l ->
  StronglySorted (key_le key) (insertByOrderKey key x l).
Proof.
  induction 1 as [|y l Hs IH Hall]; simpl.
  - repeat constructor.
  - destruct (key y <? key x)%string eqn:E.
    + constructor; [exact IH|].
      rewrite <- insertByOrderKey_perm.
      constructor; [now apply string_ltb_leb | exact Hall].
    + apply string_not_ltb_leb in E.
      constructor; [now constructor|].
      constructor; [exact E|].
      eapply Forall_impl; [|exact Hall].
      intros z; now apply key_le_trans.
Qed.

Lemma sortByOrderKey_sorted (l : list T) :
  StronglySorted (key_le key) (sortByOrderKey key l).
Proof.
  induction l; simpl; [constructor | now apply insertByOrderKey_sorted].
Qed.

End SortFacts.

(* ------------------------------------------------------------------ *)
(** ** The fetch attempt *)

Section FetchFacts.
Import UseProjectData FetchPlan.
Context {T : Type}.
Variable key : T -> string.
Variable env : Env T.

Lemma truthy_inv (s : option string) :
  Js.truthy s = true -> exists c r, s = Some (String c r).
Proof. destruct s as [[|c r]|]; try discriminate; eauto. Qed.

Ltac run_fetch :=
  cbv [fetch_from fetchData fetchBody publicRequest authenticatedRequest
       await unsupported setData setLoading setError settle failed
       caught_message Eff.exec Eff.try_finally Eff.try_catch Eff.bind
       Eff.ret Eff.throw Eff.modify Js.new_Error Js.instanceof_Error
       Js.message hook calls data loading error snd app];
  repeat match goal with
  | |- context [backend env ?c] =>
      destruct (backend env c) as [[? [?|]]|?]
  end;
  try reflexivity.

Ltac by_tag dt :=
  cbv [publicRequest authenticatedRequest public_fn table_query
       unsupported dataType];
  repeat (destruct (String.eqb dt _); [solve [run_fetch]|]);
  run_fetch.

(** One fetch attempt is the settlement of its plan. *)
Lemma fetch_from_settle (opts : UseProjectDataOptions)
    (st : HookState T) :
  fetch_from key env opts st = settle key env opts st (plan env opts).
Proof.
  destruct opts as [pid sid dt].
  unfold plan, fetch_from, fetchData, fetchBody, isPublicMode,
    isAuthenticatedMode, Js.and_string; cbn [shareId projectId dataType].
  destruct (Js.truthy sid) eqn:Hs; cbn [andb negb].
  - destruct (truthy_inv _ Hs) as (c & r & ->). by_tag dt.
  - destruct (Js.truthy pid) eqn:Hp; cbn [andb negb].
    + destruct (truthy_inv _ Hp) as (c & r & ->).
      destruct (user env); cbn [andb negb Js.truthy];
        [|destruct st; reflexivity].
      by_tag dt.
    + destruct st; reflexivity.
Qed.

Lemma recognized_public_fn (dt : string) :
  In dt recognized -> exists fn, public_fn dt = Some fn.
Proof.
  unfold recognized; simpl.
  intros [<-|[<-|[<-|[<-|[<-|[<-|[]]]]]]]; eexists; reflexivity.
Qed.

Lemma unrecognized_eqb (dt : string) :
  ~ In dt recognized ->
  forall tag, In tag recognized -> (dt =? tag)%string = false.
Proof.
  intros Hn tag Hin; apply String.eqb_neq; intros ->; now apply Hn.
Qed.

Lemma unrecognized_public_fn (dt : string) :
  ~ In dt recognized -> public_fn dt = None.
Proof.
  intros Hn; unfold public_fn.
  rewrite !(unrecognized_eqb dt Hn) by (simpl; tauto); reflexivity.
Qed.

Lemma unrecognized_table_query (dt pid : string) :
  ~ In dt recognized -> table_query dt pid = None.
Proof.
  intros Hn; unfold table_query.
  rewrite !(unrecognized_eqb dt Hn) by (simpl; tauto); reflexivity.
Qed.

Lemma orderable_recognized (dt : string) :
  orderable dt = true -> In dt recognized.
Proof.
  unfold orderable; rewrite !orb_true_iff, !String.eqb_eq.
  intros [[->| ->]| ->]; simpl; tauto.
Qed.

Lemma recognized_table_query (dt pid : string) :
  In dt recognized -> exists q, table_query dt pid = Some q.
Proof.
  unfold recognized; simpl.
  intros [<-|[<-|[<-|[<-|[<-|[<-|[]]]]]]]; eexists; reflexivity.
Qed.

(** With a usable identifier and a recognized tag, exactly one request is
    planned. *)
Lemma plan_request (opts : UseProjectDataOptions) :
  isPublicMode opts = true \/ isAuthenticatedMode T env opts = true ->
  In (dataType opts) recognized ->
  exists c, plan env opts = Request c.
Proof.
  intros Hmode Hdt; unfold plan, Js.and_string.
  unfold isPublicMode, isAuthenticatedMode in *.
  destruct (Js.truthy (shareId opts)) eqn:Hs; cbn [andb].
  - destruct (truthy_inv _ Hs) as (c & r & ->).
    destruct (recognized_public_fn _ Hdt) as [fn ->]; eauto.
  - destruct Hmode as [?|Ha]; [discriminate|].
    rewrite Ha. apply andb_true_iff in Ha as [Hp _]; rewrite Hp.
    destruct (truthy_inv _ Hp) as (c & r & Ep); rewrite Ep; cbn [andb].
    destruct (recognized_table_query _ (String c r) Hdt) as [q ->]; eauto.
Qed.

Lemma plan_unsupported (opts : UseProjectDataOptions) :
  isPublicMode opts = true \/ isAuthenticatedMode T env opts = true ->
  ~ In (dataType opts) recognized ->
  plan env opts = Unsupported.
Proof.
  intros Hmode Hdt; unfold plan, Js.and_string.
  unfold isPublicMode, isAuthenticatedMode in *.
  destruct (Js.truthy (shareId opts)) eqn:Hs; cbn [andb].
  - destruct (truthy_inv _ Hs) as (c & r & ->).
    now rewrite unrecognized_public_fn.
  - destruct Hmode as [?|Ha]; [discriminate|].
    rewrite Ha. apply andb_true_iff in Ha as [Hp _]; rewrite Hp.
    destruct (truthy_inv _ Hp) as (c & r & Ep); rewrite Ep; cbn [andb].
    now rewrite unrecognized_table_query.
Qed.

Lemma plan_noop (opts : UseProjectDataOptions) :
  isPublicMode opts = false -> isAuthenticatedMode T env opts = false ->
  plan env opts = NoOp.
Proof.
  unfold plan, Js.and_string; intros -> ->; reflexivity.
Qed.

End FetchFacts.

(* ------------------------------------------------------------------ *)
(** ** Properties of the data-fetch hook *)

Section HookProperties.
Import UseProjectData FetchPlan.
Context {T : Type}.
Variable key : T -> string.
Variable env : Env T.

Lemma calls_settle_request (opts : UseProjectDataOptions)
    (st : HookState T) (c : Call) :
  calls (settle key env opts st (Request c)) = [c].
Proof.
  unfold settle, failed.
  destruct (backend env c) as [[d [e|]]|x]; reflexivity.
Qed.

Lemma plan_public (opts : UseProjectDataOptions) (sid : string) :
  shareId opts = Some sid -> isPublicMode opts = true ->
  plan env opts =
    match public_fn (dataType opts) with
    | Some fn => Request (Rpc fn sid)
    | None => Unsupported
    end.
Proof.
  unfold plan, Js.and_string, isPublicMode; intros Es Hs.
  rewrite Hs, Es; reflexivity.
Qed.

Lemma plan_authenticated (opts : UseProjectDataOptions) (pid : string) :
  projectId opts = Some pid -> isPublicMode opts = false ->
  isAuthenticatedMode T env opts = true ->
  plan env opts =
    match table_query (dataType opts) pid with
    | Some q => Request (Select q)
    | None => Unsupported
    end.
Proof.
  unfold plan, Js.and_string; intros Ep -> Ha; rewrite Ha.
  unfold isAuthenticatedMode in Ha.
  apply andb_true_iff in Ha as [-> _]; rewrite Ep; reflexivity.
Qed.

(** C3. A successful fetch of [properties], [roadmap] or [documents], in
    public or in authenticated mode, issues one request, and the data the
    hook returns is what the backend answered, re-sorted ascending by order
    key whatever order the backend used. *)
Theorem fetch_orderable_sorted (opts : UseProjectDataOptions)
    (st : HookState T) :
  orderable (dataType opts) = true ->
  isPublicMode opts = true \/ isAuthenticatedMode T env opts = true ->
  exists c,
    calls (fetch_from key env opts st) = [c] /\
    forall answered,
      backend env c = Resolves (mkResponse answered None) ->
      let rows := match answered with Some rows => rows | None => [] end in
      let returned := data (hook (fetch_from key env opts st)) in
      returned = sortByOrderKey key rows
      /\ StronglySorted (key_le key) returned
      /\ Permutation rows returned
      /\ loading (hook (fetch_from key env opts st)) = false
      /\ error (hook (fetch_from key env opts st)) = None.
Proof.
  intros Ho Hmode.
  destruct (plan_request env opts Hmode (orderable_recognized _ Ho))
    as [c Hc].
  exists c; rewrite fetch_from_settle, Hc; split.
  - apply calls_settle_request.
  - intros answered Hb; unfold settle; rewrite Hb, Ho; cbn.
    repeat split.
    + apply sortByOrderKey_sorted.
    + apply sortByOrderKey_perm.
Qed.

(** C4. Invoked with neither a usable share identifier nor a usable
    authenticated project identifier, the hook ends with data [[]],
    loading false and error null, and has sent nothing to the backend. *)
Theorem useProjectData_no_identifier (opts : UseProjectDataOptions) :
  isPublicMode opts = false ->
  isAuthenticatedMode T env opts = false ->
  useProjectData key env opts = mkWorld (mkState [] false None) [].
Proof.
  intros Hp Ha; unfold useProjectData.
  rewrite fetch_from_settle, plan_noop by assumption; reflexivity.
Qed.

(** C5. Invoked with a data-type tag outside the recognized set while an
    identifier is usable, the hook ends with the error message
    "Unsupported data type: <tag>", empty data and loading false. *)
Theorem useProjectData_unsupported (opts : UseProjectDataOptions) :
  ~ In (dataType opts) recognized ->
  isPublicMode opts = true \/ isAuthenticatedMode T env opts = true ->
  useProjectData key env opts =
    mkWorld
      (mkState [] false
         (Some ("Unsupported data type: " ++ dataType opts)%string))
      [].
Proof.
  intros Hdt Hmode; unfold useProjectData.
  rewrite fetch_from_settle, plan_unsupported by assumption; reflexivity.
Qed.

(** C8. In authenticated mode the request is the direct query on the
    table fixed for the tag, filtered by the project identifier, with the
    sort fixed for the tag: updates by update date descending; properties,
    roadmap and documents by order key ascending; requirements by
    category; tour availability by proposed date ascending. *)
Theorem authenticated_query (opts : UseProjectDataOptions)
    (st : HookState T) (pid : string) :
  projectId opts = Some pid ->
  isPublicMode opts = false ->
  isAuthenticatedMode T env opts = true ->
  let issued := calls (fetch_from key env opts st) in
  let by_project table column direction :=
    [Select (mkQuery table "*" "project_id" pid column direction)] in
  (dataType opts = "updates"%string ->
     issued = by_project "project_updates" "update_date" (Some false))
  /\ (dataType opts = "properties"%string ->
     issued = by_project "properties" "order_key" (Some true))
  /\ (dataType opts = "roadmap"%string ->
     issued = by_project "project_roadmap" "order_key" (Some true))
  /\ (dataType opts = "documents"%string ->
     issued = by_project "project_documents" "order_key" (Some true))
  /\ (dataType opts = "requirements"%string ->
     issued = by_project "client_requirements" "category" None)
  /\ (dataType opts = "client_tour_availability"%string ->
     issued = by_project "client_tour_availability" "proposed_datetime"
                (Some true)).
Proof.
  intros Ep Hpub Ha issued by_project; subst issued by_project.
  rewrite fetch_from_settle, (plan_authenticated opts pid Ep Hpub Ha).
  repeat split; intros ->; cbn [table_query String.eqb Ascii.eqb
    Bool.eqb]; apply calls_settle_request.
Qed.

(** C9. With both a share identifier and a usable authenticated project
    identifier, public mode wins: every request sent is a remote procedure
    call carrying the share identifier, so no direct table query is sent;
    for a recognized tag exactly one such call is sent. *)
Theorem public_mode_precedence (opts : UseProjectDataOptions)
    (st : HookState T) (sid : string) :
  shareId opts = Some sid ->
  isPublicMode opts = true ->
  isAuthenticatedMode T env opts = true ->
  let issued := calls (fetch_from key env opts st) in
  (forall c, In c issued -> exists fn, c = Rpc fn sid)
  /\ (forall q, ~ In (Select q) issued)
  /\ (In (dataType opts) recognized -> exists fn, issued = [Rpc fn sid]).
Proof.
  intros Es Hpub _ issued; subst issued.
  rewrite fetch_from_settle, (plan_public opts sid Es Hpub).
  assert (Hrpc : forall c,
    In c (calls (settle key env opts st
      match public_fn (dataType opts) with
      | Some fn => Request (Rpc fn sid)
      | None => Unsupported
      end)) -> exists fn, c = Rpc fn sid).
  { destruct (public_fn (dataType opts)) as [fn|].
    - rewrite calls_settle_request; intros c [<-|[]]; eauto.
    - intros c []. }
  split; [exact Hrpc|split].
  - intros q Hq; destruct (Hrpc _ Hq) as [fn Hfn]; discriminate.
  - intros Hdt; destruct (recognized_public_fn _ Hdt) as [fn ->].
    exists fn; apply calls_settle_request.
Qed.

(** C10. A fetch attempt that ends with an error message leaves the data
    as it was before the attempt: the error message is set, loading is
    cleared, nothing else changes. *)
Theorem failed_fetch_keeps_data (opts : UseProjectDataOptions)
    (st : HookState T) (msg : string) :
  error (hook (fetch_from key env opts st)) = Some msg ->
  hook (fetch_from key env opts st) = mkState (data st) false (Some msg).
Proof.
  rewrite fetch_from_settle.
  destruct (plan env opts) as [| |c]; unfold settle, failed.
  - cbn; now intros ->.
  - cbn; now intros [= <-].
  - destruct (backend env c) as [[d [e|]]|x]; cbn;
      try discriminate; now intros [= <-].
Qed.

(** Without a usable identifier an attempt only clears the loading flag. *)
Lemma fetch_no_identifier_keeps_state (opts : UseProjectDataOptions)
    (st : HookState T) :
  isPublicMode opts = false ->
  isAuthenticatedMode T env opts = false ->
  fetch_from key env opts st
  = mkWorld (mkState (data st) false (error st)) [].
Proof.
  intros Hp Ha.
  rewrite fetch_from_settle, plan_noop by assumption; reflexivity.
Qed.

(** The three ways an attempt fails each end with an error message. *)
Lemma fetch_backend_error (opts : UseProjectDataOptions)
    (st : HookState T) (c : Call) (d : option (list T)) (e : Js.Thrown) :
  plan env opts = Request c ->
  backend env c = Resolves (mkResponse d (Some e)) ->
  fetch_from key env opts st = failed st (caught_message e) [c].
Proof.
  intros Hp Hb; rewrite fetch_from_settle, Hp; unfold settle.
  now rewrite Hb.
Qed.

Lemma fetch_backend_rejects (opts : UseProjectDataOptions)
    (st : HookState T) (c : Call) (x : Js.Thrown) :
  plan env opts = Request c ->
  backend env c = Rejects x ->
  fetch_from key env opts st = failed st (caught_message x) [c].
Proof.
  intros Hp Hb; rewrite fetch_from_settle, Hp; unfold settle.
  now rewrite Hb.
Qed.

Lemma fetch_unsupported (opts : UseProjectDataOptions)
    (st : HookState T) :
  ~ In (dataType opts) recognized ->
  isPublicMode opts = true \/ isAuthenticatedMode T env opts = true ->
  fetch_from key env opts st =
    failed st ("Unsupported data type: " ++ dataType opts)%string [].
Proof.
  intros Hdt Hmode.
  rewrite fetch_from_settle, plan_unsupported by assumption; reflexivity.
Qed.

End HookProperties.

(* ------------------------------------------------------------------ *)
(** ** Properties of the share operation *)

Section ShareProperties.
Import LeaseTrackerPage ShareLog.

Ltac run_share :=
  cbv [run click handleShareProject copyToClipboard legacyCopy
       persistShareId setProject setCopySuccess set_page set_clipboard
       emit Eff.try_catch Eff.bind Eff.ret Eff.throw Eff.modify
       Js.new_Error Js.truthy page clipboard trace project cardOrder
       copySuccess user navigator_clipboard legacy_copy randomUUID
       update_answer public_share_id project_id other_columns snd fst
       app negb] in *.

(** Every way of cutting a given log around one of its events. *)
Ltac cut_log H before :=
  destruct before as [|? before]; cbn [app] in H;
  [ inversion H; subst; clear H
  | match type of H with
    | [] = _ => discriminate H
    | _ :: _ = _ :: _ =>
        let E := fresh "E" in
        injection H as E H; subst; cut_log H before
    end ].

Ltac each_env env :=
  destruct env as [rid [u|] org [| |] [[|]|] [sid0|] [|e0|e0]].

Ltac close_log :=
  unfold none_of, copied;
  repeat match goal with
  | H : None = Some _ |- _ => discriminate H
  | H : Some _ = Some _ |- _ => injection H as <-
  | H : _ \/ _ |- _ => destruct H; try discriminate
  | |- _ /\ _ => split
  | |- Forall _ [] => constructor
  | |- Forall _ (_ :: _) => constructor
  | |- In _ _ => cbn [In]; tauto
  | |- Exists _ _ => solve [ repeat (first [ left; solve [auto] | right ]) ]
  | |- exists _, _ => eexists
  | |- forall _, _ => intro
  | H : copy_attempt _ = Some _ |- _ =>
      cbn [copy_attempt] in H; first [discriminate H | injection H as <-]
  | |- _ = _ => reflexivity
  | |- _ => congruence
  end.

(** On a project without a share identifier and with a signed-in user,
    the handler starts by asking for a random identifier; when one is
    produced and the clipboard takes the copy, the URL is copied and the
    update of the project row is attempted. *)
Lemma share_fresh_generates
    (env : Env) (st : PageState) (cb : option string) (p : ProjectData)
    (who : string) :
  project st = Some p ->
  Js.truthy (public_share_id p) = false ->
  user env = Some who ->
  exists rest,
    trace (run (handleShareProject env) st cb)
    = EvRandomUUID (randomUUID env) :: rest
    /\ forall sid,
        randomUUID env = Some sid ->
        navigator_clipboard env = WriteTextResolves \/
        legacy_copy env = ExecCommandReturns true ->
        Exists (copied (share_url env sid)) rest
        /\ In (EvUpdateShareId (project_id p) sid (update_answer env)) rest.
Proof.
  intros Hp Hs Hu.
  destruct st as [pr cards cs]; cbn [project] in Hp; subst pr.
  destruct p as [ppid [[|c r]|] cols]; try discriminate Hs; clear Hs.
  all: each_env env; run_share; close_log.
Qed.

(** Every update of the share identifier in the log of a fresh share comes
    after the generation of that identifier and a copy of its URL that
    succeeded; it is the only update; when it fails nothing is shown. *)
Lemma share_update_after_copy
    (env : Env) (st : PageState) (cb : option string) (p : ProjectData) :
  project st = Some p ->
  Js.truthy (public_share_id p) = false ->
  let w := run (handleShareProject env) st cb in
  forall before pid sid answer after,
    trace w = before ++ EvUpdateShareId pid sid answer :: after ->
    (In (EvRandomUUID (Some sid)) before
     /\ Exists (copied (share_url env sid)) before
     /\ pid = project_id p)
    /\ (none_of is_update before /\ none_of is_update after)
    /\ (answer <> UpdateOk ->
        fst (click (handleShareProject env) st cb) = Eff.Normal tt
        /\ none_of is_alert (trace w)
        /\ clipboard w = Some (share_url env sid)
        /\ project (page w) = project st).
Proof.
  intros Hp Hs w before pid sid answer after H; subst w.
  destruct st as [pr cards cs]; cbn [project] in Hp; subst pr.
  destruct p as [ppid [[|c r]|] cols]; try discriminate Hs; clear Hs.
  all: each_env env; run_share; cut_log H before; close_log.
Qed.

(** C2. On a project without a share identifier, the handler (run for a
    signed-in user) first asks for a random identifier and, once the
    clipboard has taken the derived URL, attempts the update of the project
    row.  Every such attempt comes strictly after the identifier was
    generated and its URL was put on the clipboard and is made once; when it
    fails the handler completes normally, shows no alert, leaves the project
    state as it was and leaves the copied URL on the clipboard. *)
Theorem share_copies_before_persisting
    (env : Env) (st : PageState) (cb : option string) (p : ProjectData) :
  project st = Some p ->
  Js.truthy (public_share_id p) = false ->
  let w := run (handleShareProject env) st cb in
  (forall u, user env = Some u ->
     exists rest,
       trace w = EvRandomUUID (randomUUID env) :: rest
       /\ forall sid,
           randomUUID env = Some sid ->
           navigator_clipboard env = WriteTextResolves \/
           legacy_copy env = ExecCommandReturns true ->
           Exists (copied (share_url env sid)) rest
           /\ In (EvUpdateShareId (project_id p) sid (update_answer env))
                rest)
  /\ (forall before pid sid answer after,
       trace w = before ++ EvUpdateShareId pid sid answer :: after ->
       (In (EvRandomUUID (Some sid)) before
        /\ Exists (copied (share_url env sid)) before
        /\ pid = project_id p)
       /\ (none_of is_update before /\ none_of is_update after)
       /\ (answer <> UpdateOk ->
           fst (click (handleShareProject env) st cb) = Eff.Normal tt
           /\ none_of is_alert (trace w)
           /\ clipboard w = Some (share_url env sid)
           /\ project (page w) = project st)).
Proof.
  intros Hp Hs w; split.
  - intros who Hu. exact (share_fresh_generates env st cb p who Hp Hs Hu).
  - exact (share_update_after_copy env st cb p Hp Hs).
Qed.

(** In every log, a rejected [writeText] is followed at once by the legacy
    copy of the same text; when that fails too, the alert about the failed
    copy ends the log, nothing is written to the project record and the
    page state and the clipboard stay as they were. *)
Lemma rejected_write_then_fallback
    (env : Env) (st : PageState) (cb : option string) :
  let w := run (handleShareProject env) st cb in
  forall before text after,
    trace w = before ++ EvClipboardWriteText text false :: after ->
    (exists rest, after = EvExecCommandCopy text (legacy_copy env) :: rest)
    /\ (legacy_copy env <> ExecCommandReturns true ->
        after = [EvExecCommandCopy text (legacy_copy env);
                 EvAlert copy_failed_msg]
        /\ none_of is_update (trace w)
        /\ page w = st
        /\ clipboard w = cb).
Proof.
  intros w before text after H; subst w.
  destruct st as [[[ppid [[|c r]|] cols]|] cards cs].
  all: each_env env; run_share; cut_log H before; close_log.
Qed.

(** A share by a signed-in user whose primary clipboard API is absent or
    rejects: the legacy copy of the link is reached, right after the
    generation of the identifier (on a project without one) and the
    rejected [writeText] (when the API is there); when the legacy copy
    fails too, the alert about the failed copy is what follows and ends
    the run. *)
Lemma primary_failure_reaches_fallback
    (env : Env) (st : PageState) (cb : option string) (p : ProjectData)
    (who sid : string) :
  project st = Some p ->
  user env = Some who ->
  (public_share_id p = Some sid /\ sid <> EmptyString)
  \/ (Js.truthy (public_share_id p) = false /\ randomUUID env = Some sid) ->
  navigator_clipboard env <> WriteTextResolves ->
  let w := run (handleShareProject env) st cb in
  let url := share_url env sid in
  let generated :=
    if Js.truthy (public_share_id p) then []
    else [EvRandomUUID (Some sid)] in
  let primary :=
    match navigator_clipboard env with
    | WriteTextRejects => [EvClipboardWriteText url false]
    | _ => []
    end in
  let fallback := EvExecCommandCopy url (legacy_copy env) in
  (exists rest, trace w = generated ++ primary ++ fallback :: rest)
  /\ (legacy_copy env <> ExecCommandReturns true ->
      trace w
      = generated ++ primary ++ [fallback; EvAlert copy_failed_msg]
      /\ none_of is_update (trace w)
      /\ page w = st
      /\ clipboard w = cb).
Proof.
  intros Hp Hu Hid Hnav w url generated primary fallback;
    subst w url generated primary fallback.
  destruct st as [pr cards cs]; cbn [project] in Hp; subst pr.
  destruct p as [ppid psid cols]; cbn [public_share_id] in Hid.
  destruct Hid as [[-> Hne]|[Hs Hr]].
  - destruct sid as [|c r]; [congruence|]; clear Hne.
    each_env env; run_share; cbv [share_url origin]; cbn [app];
      try congruence; close_log.
  - destruct psid as [[|c r]|]; try discriminate Hs; clear Hs.
    all: each_env env; run_share; cbv [share_url origin]; cbn [app];
      try congruence; close_log.
Qed.

(** C6. A share by a signed-in user on a loaded project, with the link
    to copy made from the existing identifier or from the one just
    generated.  When the primary clipboard API fails, be it absent or its
    [writeText] rejected, the legacy copy of the link is attempted next.
    When the legacy copy fails too, the alert about the failed copy is
    shown and the handler stops there: nothing is written to the project
    record, so a fresh share persists no identifier, and the page state and
    the clipboard stay as they were.  The same holds read off the log alone:
    wherever a rejected [writeText] stands in a log, the legacy copy of the
    same text follows it, and after a failed legacy copy only the alert. *)
Theorem clipboard_failure_aborts
    (env : Env) (st : PageState) (cb : option string) (p : ProjectData)
    (who sid : string) :
  project st = Some p ->
  user env = Some who ->
  (public_share_id p = Some sid /\ sid <> EmptyString)
  \/ (Js.truthy (public_share_id p) = false /\ randomUUID env = Some sid) ->
  navigator_clipboard env <> WriteTextResolves ->
  let w := run (handleShareProject env) st cb in
  let url := share_url env sid in
  let generated :=
    if Js.truthy (public_share_id p) then []
    else [EvRandomUUID (Some sid)] in
  let primary :=
    match navigator_clipboard env with
    | WriteTextRejects => [EvClipboardWriteText url false]
    | _ => []
    end in
  let fallback := EvExecCommandCopy url (legacy_copy env) in
  (exists rest, trace w = generated ++ primary ++ fallback :: rest)
  /\ (legacy_copy env <> ExecCommandReturns true ->
      trace w
      = generated ++ primary ++ [fallback; EvAlert copy_failed_msg]
      /\ none_of is_update (trace w)
      /\ page w = st
      /\ clipboard w = cb)
  /\ (forall before text after,
      trace w = before ++ EvClipboardWriteText text false :: after ->
      (exists rest,
         after = EvExecCommandCopy text (legacy_copy env) :: rest)
      /\ (legacy_copy env <> ExecCommandReturns true ->
          after = [EvExecCommandCopy text (legacy_copy env);
                   EvAlert copy_failed_msg]
          /\ none_of is_update (trace w)
          /\ page w = st
          /\ clipboard w = cb)).
Proof.
  intros Hp Hu Hid Hnav w url generated primary fallback.
  destruct (primary_failure_reaches_fallback env st cb p who sid
              Hp Hu Hid Hnav) as [Hreach Habort].
  split; [exact Hreach|].
  split; [exact Habort|].
  exact (rejected_write_then_fallback env st cb).
Qed.

(** C7. On a project that already has a share identifier, the handler
    generates no identifier and writes nothing to the project record, the
    project state stays as it was, and whatever it tries to copy is the
    URL [<origin>/share/<shareId>] of that identifier; for a signed-in
    user the copy is the first thing done, and when the clipboard takes
    it the clipboard holds that URL. *)
Theorem share_existing_identifier
    (env : Env) (st : PageState) (cb : option string) (p : ProjectData)
    (sid : string) :
  project st = Some p ->
  public_share_id p = Some sid ->
  sid <> EmptyString ->
  let w := run (handleShareProject env) st cb in
  let url := (origin env ++ "/share/" ++ sid)%string in
  none_of is_randomUUID (trace w)
  /\ none_of is_update (trace w)
  /\ project (page w) = Some p
  /\ Forall (fun e => forall text, copy_attempt e = Some text -> text = url)
       (trace w)
  /\ (forall u, user env = Some u ->
      (exists e rest, trace w = e :: rest /\ copy_attempt e = Some url)
      /\ (navigator_clipboard env = WriteTextResolves \/
          legacy_copy env = ExecCommandReturns true ->
          Exists (copied url) (trace w) /\ clipboard w = Some url)).
Proof.
  intros Hp Hs Hne w url; subst w url.
  destruct st as [pr cards cs]; cbn [project] in Hp; subst pr.
  destruct p as [ppid psid cols]; cbn [public_share_id] in Hs; subst psid.
  destruct sid as [|c r]; [congruence|]; clear Hne.
  each_env env; run_share; cbv [share_url origin];
    close_log; try solve [intuition congruence].
Qed.

End ShareProperties.

(* ------------------------------------------------------------------ *)
(** ** The properties at sample inputs *)

Section AtSamples.
Import UseProjectData FetchPlan Samples.

(** The example of the specification: rows of [properties] with order
    keys a2, a0, a1 come back as a0, a1, a2. *)
Example fetch_properties_example :
  map snd
    (data (hook (useProjectData snd env_ok (by_project "properties"))))
  = ["a0"; "a1"; "a2"]%string
  /\ map snd
    (data (hook (useProjectData snd env_ok (by_share "properties"))))
  = ["a0"; "a1"; "a2"]%string.
Proof. split; reflexivity. Qed.

Lemma fetch_orderable_sorted_witness :
  exists c,
    calls (fetch_from snd env_ok (by_share "roadmap") initial_state) = [c]
    /\ forall answered,
      backend env_ok c = Resolves (mkResponse answered None) ->
      let rows := match answered with Some rows => rows | None => [] end in
      let returned :=
        data (hook (fetch_from snd env_ok (by_share "roadmap")
                      initial_state)) in
      returned = sortByOrderKey snd rows
      /\ StronglySorted (key_le snd) returned
      /\ Permutation rows returned
      /\ loading (hook (fetch_from snd env_ok (by_share "roadmap")
                          initial_state)) = false
      /\ error (hook (fetch_from snd env_ok (by_share "roadmap")
                        initial_state)) = None.
Proof.
  apply (fetch_orderable_sorted snd env_ok (by_share "roadmap")
           initial_state); [reflexivity | left; reflexivity].
Defined.

Lemma useProjectData_no_identifier_witness :
  useProjectData snd env_anonymous (by_project "updates")
  = mkWorld (mkState [] false None) [].
Proof.
  apply (useProjectData_no_identifier snd env_anonymous
           (by_project "updates")); reflexivity.
Defined.

Lemma useProjectData_unsupported_witness :
  useProjectData snd env_ok (by_project "invoices")
  = mkWorld
      (mkState [] false (Some "Unsupported data type: invoices"%string))
      [].
Proof.
  apply (useProjectData_unsupported snd env_ok (by_project "invoices")).
  - cbn [dataType by_project recognized In].
    intros [H|[H|[H|[H|[H|[H|[]]]]]]]; discriminate H.
  - right; reflexivity.
Defined.

Lemma authenticated_query_witness :
  calls (fetch_from snd env_ok (by_project "updates") initial_state)
  = [Select (mkQuery "project_updates" "*" "project_id" "proj_1"
               "update_date" (Some false))].
Proof.
  apply (authenticated_query snd env_ok (by_project "updates")
           initial_state "proj_1"); reflexivity.
Defined.

Lemma public_mode_precedence_witness :
  exists fn,
    calls (fetch_from snd env_ok (by_both "documents") initial_state)
    = [Rpc fn "share_1"].
Proof.
  apply (public_mode_precedence snd env_ok (by_both "documents")
           initial_state "share_1"); try reflexivity.
  cbn [dataType by_both recognized In]; tauto.
Defined.

Lemma failed_fetch_keeps_data_witness :
  hook (fetch_from snd env_error (by_project "properties")
          (mkState kept_rows false None))
  = mkState kept_rows false (Some "An error occurred"%string).
Proof.
  apply (failed_fetch_keeps_data snd env_error (by_project "properties")
           (mkState kept_rows false None)); reflexivity.
Defined.

End AtSamples.

Section ShareAtSamples.
Import LeaseTrackerPage ShareLog Samples.

Lemma share_copies_before_persisting_witness :
  let env := browser (ExecCommandReturns true) in
  let w := run (handleShareProject env) (page_of fresh_project) None in
  let url := "https://app.example/share/uuid-1"%string in
  let before :=
    [EvRandomUUID (Some "uuid-1"%string);
     EvClipboardWriteText url false;
     EvExecCommandCopy url (ExecCommandReturns true);
     EvSetTimeout 2000] in
  let failure := UpdateRejects (Js.new_Error "network") in
  trace w = before ++ [EvUpdateShareId "proj_1" "uuid-1" failure]
  /\ (exists rest, trace w = EvRandomUUID (Some "uuid-1"%string) :: rest)
  /\ Exists (copied url) before
  /\ none_of is_update before
  /\ (failure <> UpdateOk ->
      fst (click (handleShareProject env) (page_of fresh_project) None)
      = Eff.Normal tt
      /\ none_of is_alert (trace w)
      /\ clipboard w = Some url
      /\ project (page w) = Some fresh_project).
Proof.
  intros env w url before failure.
  destruct (share_copies_before_persisting env (page_of fresh_project) None
              fresh_project eq_refl eq_refl) as [Hgen Hord].
  destruct (Hgen "user_1"%string eq_refl) as [rest [Hrest _]].
  destruct (Hord before "proj_1"%string "uuid-1"%string failure []
              eq_refl) as [[_ [Hcopy _]] [[Hone _] Hfail]].
  split; [reflexivity|].
  split; [exists rest; exact Hrest|].
  split; [exact Hcopy|].
  split; [exact Hone|exact Hfail].
Defined.

Lemma clipboard_failure_aborts_witness :
  let env := LoadSamples.no_clipboard_api in
  let w := run (handleShareProject env) (page_of fresh_project) None in
  let url := "https://app.example/share/uuid-1"%string in
  trace w
  = [EvRandomUUID (Some "uuid-1"%string);
     EvExecCommandCopy url LegacyThrows;
     EvAlert copy_failed_msg]
  /\ none_of is_update (trace w)
  /\ page w = page_of fresh_project
  /\ clipboard w = None.
Proof.
  intros env w url.
  destruct (clipboard_failure_aborts env (page_of fresh_project) None
              fresh_project "user_1" "uuid-1" eq_refl eq_refl
              (or_intror (conj eq_refl eq_refl)))
    as (_ & Habort & _).
  - discriminate.
  - apply Habort; discriminate.
Defined.

Lemma share_existing_identifier_witness :
  let env := browser (ExecCommandReturns true) in
  let w := run (handleShareProject env) (page_of shared_project) None in
  let url := "https://app.example/share/abc123"%string in
  none_of is_randomUUID (trace w)
  /\ none_of is_update (trace w)
  /\ project (page w) = Some shared_project
  /\ Forall (fun e => forall text, copy_attempt e = Some text -> text = url)
       (trace w)
  /\ (forall u, user env = Some u ->
      (exists e rest, trace w = e :: rest /\ copy_attempt e = Some url)
      /\ (navigator_clipboard env = WriteTextResolves \/
          legacy_copy env = ExecCommandReturns true ->
          Exists (copied url) (trace w) /\ clipboard w = Some url)).
Proof.
  intros env w url.
  apply (share_existing_identifier env (page_of shared_project) None
           shared_project "abc123" eq_refl eq_refl); discriminate.
Defined.

End ShareAtSamples.
(* ------------------------------------------------------------------ *)
(** ** More on card reordering *)

Section ReorderMore.
Import LeaseTrackerPage.
Context {A B : Type}.

Lemma insert_at_perm (j : nat) (x : A) (l : list A) :
  Permutation (Reorder.insert_at j x l) (x :: l).
Proof.
  revert j; induction l as [|y l IH]; intros [|j]; simpl;
    try reflexivity.
  rewrite IH; apply perm_swap.
Qed.

Lemma remove_at_perm (i : nat) (x : A) (l : list A) :
  nth_error l i = Some x -> Permutation l (x :: Reorder.remove_at i l).
Proof.
  revert i; induction l as [|y l IH]; intros [|i] H; simpl in *;
    try discriminate.
  - injection H as ->; reflexivity.
  - rewrite (IH i H) at 1; apply perm_swap.
Qed.

Lemma move_perm (i j : nat) (l : list A) :
  Permutation (Reorder.move i j l) l.
Proof.
  unfold Reorder.move; destruct (nth_error l i) as [x|] eqn:E;
    [|reflexivity].
  rewrite insert_at_perm; symmetry; now apply remove_at_perm.
Qed.

Lemma move_map (f : A -> B) (i j : nat) (l : list A) :
  Reorder.move i j (map f l) = map f (Reorder.move i j l).
Proof.
  unfold Reorder.move; rewrite nth_error_map.
  destruct (nth_error l i) as [x|]; cbn [option_map]; [|reflexivity].
  now rewrite remove_at_map, insert_at_map.
Qed.

Lemma nth_error_insert_at (j : nat) (x : A) (l : list A) :
  j <= length l -> nth_error (Reorder.insert_at j x l) j = Some x.
Proof.
  revert j; induction l as [|y l IH]; intros [|j] H; simpl in *;
    try reflexivity; try lia.
  apply IH; lia.
Qed.

Lemma remove_at_insert_at (j : nat) (x : A) (l : list A) :
  j <= length l -> Reorder.remove_at j (Reorder.insert_at j x l) = l.
Proof.
  revert j; induction l as [|y l IH]; intros [|j] H; simpl in *;
    try reflexivity; try lia.
  rewrite IH; [reflexivity | lia].
Qed.

Lemma insert_at_remove_at (i : nat) (x : A) (l : list A) :
  nth_error l i = Some x ->
  Reorder.insert_at i x (Reorder.remove_at i l) = l.
Proof.
  revert i; induction l as [|y l IH]; intros [|i] H; simpl in *;
    try discriminate.
  - now injection H as ->.
  - destruct l as [|z l']; [destruct i; discriminate|].
    now rewrite (IH i H).
Qed.

(** Moving an element back undoes the move. *)
Lemma move_back (i j : nat) (l : list A) :
  i < length l -> j < length l ->
  Reorder.move j i (Reorder.move i j l) = l.
Proof.
  intros Hi Hj; unfold Reorder.move at 2.
  destruct (nth_error l i) as [x|] eqn:E;
    [|apply nth_error_None in E; lia].
  pose proof (remove_at_length i l Hi) as Hlen.
  unfold Reorder.move.
  rewrite nth_error_insert_at by lia.
  rewrite remove_at_insert_at by lia.
  now apply insert_at_remove_at.
Qed.

End ReorderMore.

Section ReorderProperties.
Import LeaseTrackerPage.
Variable env : Env.

Lemma number_to_string_inj (m n : nat) :
  Js.number_to_string m = Js.number_to_string n -> m = n.
Proof.
  unfold Js.number_to_string; intros H.
  apply (f_equal NilEmpty.uint_of_string) in H.
  rewrite !NilEmpty.usu in H; injection H as H.
  apply (f_equal Nat.of_uint) in H.
  now rewrite !DecimalNat.Unsigned.of_to in H.
Qed.

Lemma sequential_key_inj (m n : nat) :
  Reorder.sequential_key m = Reorder.sequential_key n -> m = n.
Proof.
  unfold Reorder.sequential_key; intros [= H].
  now apply number_to_string_inj.
Qed.

Lemma NoDup_map_injective {A B : Type} (f : A -> B) (l : list A) :
  (forall x y, f x = f y -> x = y) -> NoDup l -> NoDup (map f l).
Proof.
  intros Hf; induction 1 as [|x l Hx Hl IH]; simpl; constructor; trivial.
  rewrite in_map_iff; intros (y & E & Hy).
  apply Hf in E; now subst y.
Qed.

(** A deletion that starts at or past the end deletes nothing. *)
Lemma splice_past_end {A : Type} (l : list A) (i d : Z) :
  (Z.of_nat (length l) <= i)%Z -> Js.splice l i d [] = ([], l).
Proof.
  intros Hi; unfold Js.splice.
  destruct (Z.ltb_spec i 0) as [?|_]; [lia|].
  replace (Z.to_nat (Z.min i (Z.of_nat (length l)))) with (length l) by lia.
  replace (Z.to_nat (Z.min (Z.max d 0)
             (Z.of_nat (length l) - Z.min i (Z.of_nat (length l)))))
    with 0 by lia.
  rewrite Nat.add_0_r, firstn_all, skipn_all, firstn_O, app_nil_r.
  reflexivity.
Qed.

(** Whatever the positions, the keys of the computed array are the
    sequential keys of its positions. *)
Lemma reordered_keys (cards : list CardObject) (i j : Z) :
  map card_order_key (reordered cards i j)
  = map Reorder.sequential_key (seq 0 (length (reordered cards i j))).
Proof.
  unfold reordered.
  destruct (Js.splice (map Some cards) i 1 []) as [removedItems l1].
  destruct (Js.splice l1 j 0 [hd None removedItems]) as [ignored l2].
  unfold Js.mapi; rewrite map_mapi_from, mapi_from_length.
  rewrite (mapi_from_ext _ (fun _ k => Reorder.sequential_key k))
    by (intros; apply rekey_order_key).
  apply mapi_from_index_only.
Qed.

(** With both positions inside the array, the stored list has the contents
    of the moved list and the length of the list before. *)
Lemma handleCardReorder_contents
    (st : PageState) (cb : option string) (i j : Z) :
  (0 <= i < Z.of_nat (length (cardOrder st)))%Z ->
  (0 <= j < Z.of_nat (length (cardOrder st)))%Z ->
  let shown :=
    cardOrder (page (run (fun s => handleCardReorder env s i j) st cb)) in
  map card_content shown
  = Reorder.move (Z.to_nat i) (Z.to_nat j) (map card_content (cardOrder st))
  /\ length shown = length (cardOrder st).
Proof.
  intros Hi Hj shown; subst shown.
  rewrite handleCardReorder_state, reordered_move by assumption.
  unfold Js.mapi; split.
  - rewrite map_mapi_from, move_map.
    rewrite (mapi_from_ext _ (fun c _ => card_content c))
      by (intros; apply rekey_content).
    apply mapi_from_const.
  - rewrite mapi_from_length; apply move_length; lia.
Qed.

(** X1. After a reorder with any two integer positions, in range or not,
    no two cards of the stored list carry the same order key. *)
Theorem handleCardReorder_keys_unique
    (st : PageState) (cb : option string) (i j : Z) :
  NoDup (map card_order_key
           (cardOrder
              (page (run (fun s => handleCardReorder env s i j) st cb)))).
Proof.
  rewrite handleCardReorder_state, reordered_keys.
  apply NoDup_map_injective; [apply sequential_key_inj | apply seq_NoDup].
Qed.

(** X2. A reorder with valid positions neither loses nor duplicates a
    card: the contents of the stored list are a permutation of the contents
    before. *)
Theorem handleCardReorder_permutes
    (st : PageState) (cb : option string) (i j : Z) :
  (0 <= i < Z.of_nat (length (cardOrder st)))%Z ->
  (0 <= j < Z.of_nat (length (cardOrder st)))%Z ->
  Permutation
    (map card_content
       (cardOrder (page (run (fun s => handleCardReorder env s i j) st cb))))
    (map card_content (cardOrder st)).
Proof.
  intros Hi Hj.
  destruct (handleCardReorder_contents st cb i j Hi Hj) as [-> _].
  apply move_perm.
Qed.

(** X3. Dragging a card from [i] to [j] and then dragging it back from [j]
    to [i] restores the order of the cards. *)
Theorem handleCardReorder_round_trip
    (st : PageState) (cb cb' : option string) (i j : Z) :
  (0 <= i < Z.of_nat (length (cardOrder st)))%Z ->
  (0 <= j < Z.of_nat (length (cardOrder st)))%Z ->
  let st1 := page (run (fun s => handleCardReorder env s i j) st cb) in
  let st2 := page (run (fun s => handleCardReorder env s j i) st1 cb') in
  map card_content (cardOrder st2) = map card_content (cardOrder st).
Proof.
  intros Hi Hj st1 st2.
  destruct (handleCardReorder_contents st cb i j Hi Hj) as (Hc1 & Hl1).
  fold st1 in Hc1, Hl1.
  destruct (handleCardReorder_contents st1 cb' j i) as (Hc2 & _);
    try (rewrite Hl1; assumption).
  fold st2 in Hc2.
  rewrite Hc2, Hc1; apply move_back; rewrite length_map; lia.
Qed.

(** X4. A source position at or past the end of the array removes
    nothing: the list grows by one card that has an order key and nothing
    else, put at the destination position. *)
Theorem handleCardReorder_source_out_of_range
    (st : PageState) (cb : option string) (i j : Z) :
  (Z.of_nat (length (cardOrder st)) <= i)%Z ->
  (0 <= j <= Z.of_nat (length (cardOrder st)))%Z ->
  map card_content
    (cardOrder (page (run (fun s => handleCardReorder env s i j) st cb)))
  = Reorder.insert_at (Z.to_nat j) None (map card_content (cardOrder st)).
Proof.
  intros Hi Hj; rewrite handleCardReorder_state.
  unfold reordered.
  rewrite splice_past_end by (rewrite length_map; lia).
  cbn [hd].
  rewrite splice_insert_one by (rewrite length_map; lia).
  unfold Js.mapi; rewrite map_mapi_from.
  rewrite (mapi_from_ext _ (fun c _ =>
             match c with Some c => card_content c | None => None end)).
  2:{ intros [[c|k]|] n; reflexivity. }
  rewrite mapi_from_const.
  rewrite <- (map_map Some
                (fun c => match c with
                          | Some c => card_content c | None => None end)).
  change (None (A:=string * CardType * string))
    with ((fun c => match c with
                    | Some c => card_content c | None => None end) None).
  rewrite <- insert_at_map.
  rewrite map_map; reflexivity.
Qed.

(** X5. With at most ten cards the regenerated keys are strictly ascending
    in the lexicographic order of strings, so comparing order keys gives
    back the display order. *)
Theorem handleCardReorder_keys_ascending
    (st : PageState) (cb : option string) (i j : Z) :
  let shown :=
    cardOrder (page (run (fun s => handleCardReorder env s i j) st cb)) in
  length shown <= 10 ->
  StronglySorted KeyOrder.key_lt (map card_order_key shown).
Proof.
  intros shown; subst shown.
  rewrite handleCardReorder_state, reordered_keys.
  generalize (length (reordered (cardOrder st) i j)); intros n Hn.
  do 11 (destruct n as [|n]; [repeat constructor|]); lia.
Qed.

(** From eleven cards on the keys no longer compare in display order. *)
Example eleventh_key_not_ascending :
  (Reorder.sequential_key 10 <? Reorder.sequential_key 9)%string = true.
Proof. reflexivity. Qed.

(** X6. A reorder writes the list it displays, and nothing else: the local
    store receives the displayed list under the key of the route, the
    backend receives the same list and only when a project with an
    identifier is loaded; the project, the copy flag and the clipboard are
    left alone. *)
Theorem handleCardReorder_persists_displayed
    (st : PageState) (cb : option string) (i j : Z) :
  let w := run (fun s => handleCardReorder env s i j) st cb in
  let displayed := cardOrder (page w) in
  trace w
  = EvLocalStore (card_order_storage_key (route_id env)) displayed
    :: match project st with
       | Some p =>
           if Js.truthy (Some (project_id p))
           then [EvSaveDashboardCardOrder displayed (project_id p)]
           else []
       | None => []
       end
  /\ project (page w) = project st
  /\ copySuccess (page w) = copySuccess st
  /\ clipboard w = cb.
Proof.
  destruct st as [[[pid sh cols]|] cards cs]; [destruct pid|];
    repeat split.
Qed.

End ReorderProperties.

(* ------------------------------------------------------------------ *)
(** ** More on copying and sharing *)

Section ShareMore.
Import LeaseTrackerPage ShareLog.

Ltac share_cbv :=
  cbv [run click handleShareProject copyToClipboard legacyCopy
       persistShareId setProject setCopySuccess set_page set_clipboard
       emit Eff.try_catch Eff.bind Eff.ret Eff.throw Eff.modify
       Js.new_Error Js.truthy page clipboard trace project cardOrder
       copySuccess user navigator_clipboard legacy_copy randomUUID
       update_answer public_share_id project_id other_columns origin
       share_url snd fst app negb] in *.

Ltac env_cases env :=
  destruct env as [rid [u|] org [| |] [[|]|] [sid0|] [|e0|e0]].

Ltac page_cases st :=
  destruct st as [[[ppid [[|c r]|] cols]|] cards cs].

(** Contradictions among the hypotheses and facts read off a concrete
    log. *)
Ltac log_facts :=
  unfold none_of, copied in *;
  repeat match goal with
  | H : False |- _ => destruct H
  | H : _ /\ _ |- _ => destruct H
  | H : _ \/ _ |- _ => destruct H
  | H : exists _, _ |- _ => destruct H
  | H : ?x <> ?x |- _ => destruct (H eq_refl)
  | H : In _ [] |- _ => destruct H
  | H : In _ (_ :: _) |- _ => cbn [In] in H
  | H : Exists _ [] |- _ => inversion H
  | H : Exists _ (_ :: _) |- _ => inversion H; subst; clear H
  | H : _ = _ |- _ => discriminate H
  | H : Some _ = Some _ |- _ => injection H as <-
  | H : EvAlert _ = EvAlert _ |- _ => injection H as <-
  end.

Ltac log_goal :=
  repeat match goal with
  | |- _ /\ _ => split
  | |- _ <-> _ => split
  | |- Forall _ [] => constructor
  | |- Forall _ (_ :: _) => constructor
  | |- In _ _ => cbn [In]; tauto
  | |- Exists _ _ => solve [ repeat (first [ left; solve [auto] | right ]) ]
  | |- forall _, _ => intro
  | |- _ = _ => reflexivity
  | |- _ => progress log_facts
  | |- _ => congruence
  end.

(** X7. [copyToClipboard] never throws.  It answers [true] exactly when one
    of its attempts put the text on the clipboard, which then holds the
    text; when it answers [false] the clipboard is as before.  It makes one
    or two attempts, all with the text given, and leaves the page state
    alone. *)
Theorem copyToClipboard_outcome (env : Env) (text : string) (w : World) :
  exists (ok : bool) (attempts : list Event),
    copyToClipboard env text w
    = (Eff.Normal ok,
       mkWorld (page w) (if ok then Some text else clipboard w)
         (trace w ++ attempts))
    /\ 1 <= length attempts <= 2
    /\ Forall (fun e => copy_attempt e = Some text) attempts
    /\ (ok = true <-> Exists (copied text) attempts).
Proof.
  destruct w as [pg cb tr].
  destruct env as [rid u org nav leg uuid upd].
  destruct nav, leg as [[|]|];
    cbv [copyToClipboard legacyCopy set_clipboard emit Eff.try_catch
         Eff.bind Eff.ret Eff.throw Eff.modify Js.new_Error page clipboard
         trace navigator_clipboard legacy_copy];
    rewrite <- ?app_assoc; cbn [app];
    (exists true + exists false); eexists; (split; [reflexivity|]);
    cbn [length]; log_goal; lia.
Qed.

(** X8. [handleShareProject] never throws, whatever the browser and the
    backend answer. *)
Theorem handleShareProject_completes
    (env : Env) (st : PageState) (cb : option string) :
  fst (click (handleShareProject env) st cb) = Eff.Normal tt.
Proof.
  page_cases st; env_cases env; reflexivity.
Qed.

(** X9. A click does something exactly when a project is loaded and a user
    is signed in: otherwise nothing is logged and the state and the
    clipboard are as before. *)
Theorem handleShareProject_guard
    (env : Env) (st : PageState) (cb : option string) :
  let w := run (handleShareProject env) st cb in
  (trace w = [] <-> project st = None \/ user env = None)
  /\ (trace w = [] -> page w = st /\ clipboard w = cb).
Proof.
  page_cases st; env_cases env; share_cbv; log_goal; tauto.
Qed.

(** X10. When [crypto.randomUUID] is not available, a share on a project
    without identifier shows the alert about the share link and does
    nothing else: no copy is attempted, nothing is written, state and
    clipboard are as before. *)
Theorem handleShareProject_no_randomUUID
    (env : Env) (st : PageState) (cb : option string) (p : ProjectData)
    (who : string) :
  project st = Some p ->
  Js.truthy (public_share_id p) = false ->
  user env = Some who ->
  randomUUID env = None ->
  run (handleShareProject env) st cb
  = mkWorld st cb [EvRandomUUID None; EvAlert share_failed_msg].
Proof.
  intros Hp Hs Hu Hr.
  destruct st as [pr cards cs]; cbn [project] in Hp; subst pr.
  destruct p as [ppid [[|c r]|] cols]; try discriminate Hs; clear Hs.
  all: env_cases env; share_cbv; try discriminate; reflexivity.
Qed.

(** X11. An alert is the last thing a click does, and a click that ends
    with an alert has written nothing to the project record and has left
    the page state as it was. *)
Theorem handleShareProject_alert_is_final
    (env : Env) (st : PageState) (cb : option string) (msg : string) :
  let w := run (handleShareProject env) st cb in
  In (EvAlert msg) (trace w) ->
  (exists before,
     trace w = before ++ [EvAlert msg] /\ none_of is_alert before)
  /\ (msg = copy_failed_msg \/ msg = share_failed_msg)
  /\ none_of is_update (trace w)
  /\ page w = st.
Proof.
  intros w H; subst w.
  page_cases st; env_cases env; share_cbv; log_facts.
  all: split;
    [ eexists; split;
      [ match goal with
        | |- ?l = _ => change l with (removelast l ++ [last l (EvAlert "")])
        end; reflexivity
      | cbn [removelast]; log_goal ]
    | log_goal; tauto ].
Qed.

(** X12. The "copied" flag is raised exactly when the click put a link on
    the clipboard. *)
Theorem handleShareProject_flag_iff_copied
    (env : Env) (st : PageState) (cb : option string) :
  copySuccess st = false ->
  let w := run (handleShareProject env) st cb in
  copySuccess (page w) = true
  <-> exists text, Exists (copied text) (trace w) /\ clipboard w = Some text.
Proof.
  intros Hc w; subst w.
  destruct st as [pr cards cs]; cbn [copySuccess] in Hc; subst cs.
  destruct pr as [[ppid [[|c r]|] cols]|].
  all: env_cases env; share_cbv; split; intros H; log_facts;
    try reflexivity; try (eexists; split; [|reflexivity]); log_goal.
Qed.

(** With an identifier on the project, nothing is generated or written and
    every copy attempt carries the URL of that identifier. *)
Lemma share_existing_frame
    (env : Env) (st : PageState) (cb : option string) (p : ProjectData)
    (sid : string) :
  project st = Some p ->
  public_share_id p = Some sid ->
  sid <> EmptyString ->
  let w := run (handleShareProject env) st cb in
  none_of is_randomUUID (trace w)
  /\ none_of is_update (trace w)
  /\ project (page w) = Some p
  /\ Forall (fun e => forall text,
               copy_attempt e = Some text -> text = share_url env sid)
       (trace w).
Proof.
  intros Hp Hs Hne w; subst w.
  destruct st as [pr cards cs]; cbn [project] in Hp; subst pr.
  destruct p as [ppid psid cols]; cbn [public_share_id] in Hs; subst psid.
  destruct sid as [|c r]; [congruence|]; clear Hne.
  env_cases env; share_cbv; log_goal;
    match goal with
    | H : copy_attempt _ = Some _ |- _ =>
        cbn [copy_attempt] in H; congruence
    end.
Qed.

(** X13. Once a share has stored its identifier, the project state carries
    it, with the other columns as they were, and every later share reuses
    it: no identifier is generated, nothing is written, and what is copied
    is the same URL. *)
Theorem handleShareProject_reuses_identifier
    (env : Env) (st : PageState) (cb : option string) (p : ProjectData)
    (who sid : string) :
  project st = Some p ->
  Js.truthy (public_share_id p) = false ->
  user env = Some who ->
  randomUUID env = Some sid ->
  sid <> EmptyString ->
  navigator_clipboard env = WriteTextResolves \/
  legacy_copy env = ExecCommandReturns true ->
  update_answer env = UpdateOk ->
  let st1 := page (run (handleShareProject env) st cb) in
  project st1 = Some (mkProject (project_id p) (Some sid) (other_columns p))
  /\ forall env2 cb2,
      origin env2 = origin env ->
      let w2 := run (handleShareProject env2) st1 cb2 in
      none_of is_randomUUID (trace w2)
      /\ none_of is_update (trace w2)
      /\ project (page w2) = project st1
      /\ Forall (fun e => forall text,
                   copy_attempt e = Some text -> text = share_url env sid)
           (trace w2).
Proof.
  intros Hp Hs Hu Hr Hne Hcopy Hupd st1.
  assert (H1 : project st1
               = Some (mkProject (project_id p) (Some sid)
                         (other_columns p))).
  { subst st1.
    destruct st as [pr cards cs]; cbn [project] in Hp; subst pr.
    destruct p as [ppid [[|c r]|] cols]; try discriminate Hs; clear Hs.
    all: env_cases env; share_cbv; log_facts; reflexivity. }
  split; [exact H1|].
  intros env2 cb2 Ho w2.
  destruct (share_existing_frame env2 st1 cb2 _ sid H1 eq_refl Hne)
    as (Ha & Hb & Hc & Hd).
  repeat split; trivial.
  - now rewrite H1.
  - unfold share_url in *; now rewrite <- Ho.
Qed.

(** X14. The project state gains an identifier only through an update that
    answered without error; after a share whose update failed, the next
    share starts by generating an identifier again. *)
Theorem handleShareProject_failed_update_regenerates
    (env : Env) (st : PageState) (cb : option string) (p : ProjectData) :
  project st = Some p ->
  Js.truthy (public_share_id p) = false ->
  update_answer env <> UpdateOk ->
  let st1 := page (run (handleShareProject env) st cb) in
  project st1 = Some p
  /\ forall env2 cb2 who,
      user env2 = Some who ->
      exists rest,
        trace (run (handleShareProject env2) st1 cb2)
        = EvRandomUUID (randomUUID env2) :: rest.
Proof.
  intros Hp Hs Hupd st1.
  assert (H1 : project st1 = Some p).
  { subst st1.
    destruct st as [pr cards cs]; cbn [project] in Hp; subst pr.
    destruct p as [ppid [[|c r]|] cols]; try discriminate Hs; clear Hs.
    all: env_cases env; share_cbv; log_facts; reflexivity. }
  split; [exact H1|].
  intros env2 cb2 who Hu.
  destruct (share_fresh_generates env2 st1 cb2 p who H1 Hs Hu)
    as [rest [Hrest _]].
  now exists rest.
Qed.

End ShareMore.

(* ------------------------------------------------------------------ *)
(** ** More on the data-fetch hook *)

Section HookMore.
Import UseProjectData FetchPlan.
Context {T : Type}.
Variable key : T -> string.
Variable env : Env T.

Ltac fetch_cbv :=
  cbv [fetchData fetchBody publicRequest authenticatedRequest await
       unsupported setData setLoading setError Eff.try_finally
       Eff.try_catch Eff.bind Eff.ret Eff.throw Eff.modify Js.new_Error
       Js.instanceof_Error Js.message hook calls data loading error
       dataType fst snd app].

Ltac fetch_tags dt :=
  fetch_cbv;
  repeat (destruct (String.eqb dt _);
          [ solve [ repeat match goal with
                    | |- context [backend env ?c] =>
                        destruct (backend env c) as [[? [?|]]|?]
                    end; reflexivity ] | ]);
  try reflexivity.

(** [fetchData] handles every failure itself. *)
Lemma fetchData_completes (opts : UseProjectDataOptions) (w : World T) :
  fst (fetchData T key env opts w) = Eff.Normal tt.
Proof.
  destruct opts as [pid sid dt].
  unfold fetchData, fetchBody, isPublicMode, isAuthenticatedMode,
    Js.and_string; cbn [shareId projectId dataType].
  destruct (Js.truthy sid) eqn:Hs; cbn [andb negb].
  - destruct (truthy_inv _ Hs) as (c & r & ->). fetch_tags dt.
  - destruct (Js.truthy pid) eqn:Hp; cbn [andb negb].
    + destruct (truthy_inv _ Hp) as (c & r & ->).
      destruct (user env); cbn [andb negb Js.truthy]; [|reflexivity].
      fetch_tags dt.
    + reflexivity.
Qed.

Lemma settle_shape (opts : UseProjectDataOptions) (st : HookState T)
    (p : Plan) :
  loading (hook (settle key env opts st p)) = false
  /\ length (calls (settle key env opts st p)) <= 1.
Proof.
  destruct p as [| |c]; unfold settle, failed; cbn; auto.
  destruct (backend env c) as [[d [e|]]|x]; cbn; auto.
Qed.

(** X15. Every fetch attempt completes without throwing, ends with the
    loading flag cleared and has sent at most one request. *)
Theorem fetchData_always_settles (opts : UseProjectDataOptions)
    (st : HookState T) :
  fst (fetchData T key env opts (mkWorld st [])) = Eff.Normal tt
  /\ loading (hook (fetch_from key env opts st)) = false
  /\ length (calls (fetch_from key env opts st)) <= 1.
Proof.
  split; [apply fetchData_completes|].
  rewrite fetch_from_settle; apply settle_shape.
Qed.

(** X16. In public mode the request is the remote procedure fixed for the
    tag, called with the share identifier. *)
Theorem public_rpc (opts : UseProjectDataOptions) (st : HookState T)
    (sid : string) :
  shareId opts = Some sid ->
  isPublicMode opts = true ->
  let issued := calls (fetch_from key env opts st) in
  (dataType opts = "updates"%string ->
     issued = [Rpc "get_public_project_updates" sid])
  /\ (dataType opts = "properties"%string ->
     issued = [Rpc "get_public_properties" sid])
  /\ (dataType opts = "roadmap"%string ->
     issued = [Rpc "get_public_project_roadmap" sid])
  /\ (dataType opts = "documents"%string ->
     issued = [Rpc "get_public_project_documents" sid])
  /\ (dataType opts = "requirements"%string ->
     issued = [Rpc "get_public_client_requirements" sid])
  /\ (dataType opts = "client_tour_availability"%string ->
     issued = [Rpc "get_public_client_tour_availability" sid]).
Proof.
  intros Es Hpub issued; subst issued.
  rewrite fetch_from_settle, (plan_public env opts sid Es Hpub).
  repeat split; intros ->; cbn [public_fn String.eqb Ascii.eqb Bool.eqb];
    apply calls_settle_request.
Qed.

(** X17. For the tags that are not re-sorted ([updates], [requirements],
    [client_tour_availability]) a successful fetch returns the rows exactly
    as the backend gave them, [[]] when it gave [null], with the error
    cleared, whatever the state was before. *)
Theorem fetch_unsorted_tags (opts : UseProjectDataOptions)
    (st : HookState T) :
  In (dataType opts)
    ["updates"; "requirements"; "client_tour_availability"]%string ->
  isPublicMode opts = true \/ isAuthenticatedMode T env opts = true ->
  exists c,
    calls (fetch_from key env opts st) = [c] /\
    forall answered,
      backend env c = Resolves (mkResponse answered None) ->
      hook (fetch_from key env opts st)
      = mkState (match answered with Some rows => rows | None => [] end)
          false None.
Proof.
  intros Hdt Hmode.
  assert (Hrec : In (dataType opts) recognized)
    by (cbn [In recognized] in *; tauto).
  assert (Hord : orderable (dataType opts) = false)
    by (cbn [In] in Hdt; destruct Hdt as [<-|[<-|[<-|[]]]]; reflexivity).
  destruct (plan_request env opts Hmode Hrec) as [c Hc].
  exists c; rewrite fetch_from_settle, Hc; split.
  - apply calls_settle_request.
  - intros answered Hb; unfold settle; rewrite Hb, Hord; reflexivity.
Qed.

(** X18. The error message of a failed request: the message of the error
    when the backend answered or rejected with an [Error], and "An error
    occurred" otherwise. *)
Theorem fetch_error_message (opts : UseProjectDataOptions)
    (st : HookState T) :
  In (dataType opts) recognized ->
  isPublicMode opts = true \/ isAuthenticatedMode T env opts = true ->
  exists c,
    calls (fetch_from key env opts st) = [c] /\
    forall x,
      (exists d, backend env c = Resolves (mkResponse d (Some x)))
      \/ backend env c = Rejects x ->
      error (hook (fetch_from key env opts st))
      = Some (if Js.instanceof_Error x then Js.message x
              else "An error occurred"%string).
Proof.
  intros Hrec Hmode.
  destruct (plan_request env opts Hmode Hrec) as [c Hc].
  exists c; rewrite fetch_from_settle, Hc; split.
  - apply calls_settle_request.
  - intros x [[d Hb]|Hb]; unfold settle; rewrite Hb; reflexivity.
Qed.

(** X19. Without a signed-in user no table is ever queried, whatever the
    options. *)
Theorem no_user_no_table_query (opts : UseProjectDataOptions)
    (st : HookState T) (q : Query) :
  user env = None ->
  ~ In (Select q) (calls (fetch_from key env opts st)).
Proof.
  intros Hu; rewrite fetch_from_settle.
  assert (Ha : isAuthenticatedMode T env opts = false)
    by (unfold isAuthenticatedMode; rewrite Hu; apply andb_false_r).
  destruct (isPublicMode opts) eqn:Hp.
  - destruct (truthy_inv _ Hp) as (c & r & Es).
    rewrite (plan_public env opts _ Es Hp).
    destruct (public_fn (dataType opts)) as [fn|].
    + rewrite calls_settle_request; intros [H|[]]; discriminate H.
    + intros [].
  - rewrite plan_noop by assumption; intros [].
Qed.

End HookMore.

Section HookModes.
Import UseProjectData FetchPlan.
Context {T : Type}.
Variable key : T -> string.

(** X20. In public mode the attempt depends on the share identifier, the
    tag and the backend only: the project identifier and the signed-in user
    play no part. *)
Theorem public_mode_ignores_project_and_user
    (env env' : Env T) (opts opts' : UseProjectDataOptions)
    (st : HookState T) :
  shareId opts = shareId opts' ->
  dataType opts = dataType opts' ->
  isPublicMode opts = true ->
  (forall c, backend env c = backend env' c) ->
  fetch_from key env opts st = fetch_from key env' opts' st.
Proof.
  intros Es Ed Hp Hb.
  assert (Hp' : isPublicMode opts' = true)
    by (unfold isPublicMode in *; now rewrite <- Es).
  destruct (truthy_inv _ Hp) as (c & r & E).
  rewrite !fetch_from_settle.
  rewrite (plan_public env opts _ E Hp).
  rewrite (plan_public env' opts' (String c r)) by congruence.
  rewrite <- Ed.
  destruct (public_fn (dataType opts)) as [fn|]; unfold settle, failed.
  - rewrite <- Hb, <- Ed; reflexivity.
  - rewrite <- Ed; reflexivity.
Qed.

End HookModes.

(* ------------------------------------------------------------------ *)
(** ** Loading the project *)

Section LoadProperties.
Import LeaseTrackerPage ProjectLoad.
Variable migrate : Json -> list CardObject -> list CardObject.

Ltac load_cbv :=
  cbv [authEffect fetchProject fetchProjectBody signed_in liftPage note
       setPageError setPageLoading clearProject setProject setCardOrder
       set_page emit view mounted Eff.exec Eff.try_finally Eff.try_catch
       Eff.bind Eff.ret Eff.throw Eff.modify Js.new_Error Js.truthy
       handlers_env isLoaded select_answer route_id user shown board
       page_loading page_error log page clipboard trace project cardOrder
       copySuccess row_project dashboard_card_order fst snd app map negb
       andb orb] in *.

(** The same on a world whose log is not known: appends are kept and
    re-associated. *)
Ltac load_open :=
  cbv [authEffect fetchProject fetchProjectBody signed_in liftPage note
       setPageError setPageLoading clearProject setProject setCardOrder
       set_page emit view mounted Eff.exec Eff.try_finally Eff.try_catch
       Eff.bind Eff.ret Eff.throw Eff.modify Js.new_Error Js.truthy
       handlers_env isLoaded select_answer route_id user shown board
       page_loading page_error log page clipboard trace project cardOrder
       copySuccess row_project dashboard_card_order fst snd negb andb orb]
    in *;
  cbn [app map] in *; rewrite <- ?app_assoc; cbn [app] in *.

Ltac load_env env :=
  destruct env as [[rid u org nav leg uuid upd] loaded ans].

(** The four answers of the backend, run to the end. *)
Ltac load_answers ans :=
  destruct ans as [[rp stored]|e| |e];
  load_cbv;
  try (destruct (json_truthy stored) eqn:Etruthy;
       destruct (needsMigration stored) eqn:Eneeds).

Ltac load_answers_open ans :=
  destruct ans as [[rp stored]|e| |e];
  load_open;
  try (destruct (json_truthy stored); destruct (needsMigration stored));
  rewrite <- ?app_assoc; cbn [app].

(** X21. The effect redirects to [/] exactly when the identity provider has
    loaded and nobody is signed in, and asks the backend for the project
    exactly when it has loaded, a user is signed in and the route carries
    an identifier. *)
Theorem authEffect_gate (env : LoadEnv) (w : PageWorld) :
  log w = [] ->
  let w' := Eff.exec (authEffect env migrate) w in
  (forall path,
     In (EvNavigate path) (log w')
     <-> path = "/"%string /\ isLoaded env = true
         /\ user (handlers_env env) = None)
  /\ (forall id,
     In (EvSelectProject id) (log w')
     <-> isLoaded env = true /\ user (handlers_env env) <> None
         /\ route_id (handlers_env env) = Some id /\ id <> EmptyString).
Proof.
  intros Hl w'; subst w'.
  destruct w as [pg cb ld er lg]; cbn [log] in Hl; subst lg.
  load_env env.
  destruct loaded, u as [who|], rid as [[|c r]|]; load_answers ans.
  all: cbn [In]; split; intros x; split; intros H;
    repeat match goal with
    | H : _ /\ _ |- _ => destruct H
    | H : _ \/ _ |- _ => destruct H
    | H : False |- _ => destruct H
    | H : _ = _ |- _ => discriminate H
    | H : ?a <> ?a |- _ => destruct (H eq_refl)
    | H : EvNavigate _ = EvNavigate _ |- _ => injection H as <-
    | H : EvSelectProject _ = EvSelectProject _ |- _ => injection H as <-
    | H : Some _ = Some _ |- _ => injection H as <-
    end;
    subst; repeat split; auto; try discriminate; try congruence.
Qed.

(** X22. With an identifier on the route, [fetchProject] completes without
    throwing, clears the loading flag and asks the backend once, before
    anything else it lets out. *)
Theorem fetchProject_settles (env : LoadEnv) (w : PageWorld) (id : string) :
  route_id (handlers_env env) = Some id ->
  id <> EmptyString ->
  let r := fetchProject env migrate w in
  fst r = Eff.Normal tt
  /\ page_loading (snd r) = false
  /\ board (snd r) = board w
  /\ exists rest,
       log (snd r) = log w ++ EvSelectProject id :: rest
       /\ Forall (fun e => forall id', e <> EvSelectProject id') rest.
Proof.
  intros Hid Hne r; subst r.
  destruct w as [pg cb ld er lg]; load_env env.
  cbn [handlers_env route_id] in Hid; subst rid.
  destruct id as [|c r]; [congruence|]; clear Hne.
  load_answers_open ans;
    repeat split; eexists; (split; [reflexivity|]);
    repeat constructor; discriminate.
Qed.

(** X23. When the backend answers with an error or the request is
    rejected, [fetchProject] stores the message and touches nothing else:
    the project, the card order and the clipboard are as before and
    nothing is written to the local store or to the backend. *)
Theorem fetchProject_failure (env : LoadEnv) (w : PageWorld) (id : string)
    (e : Js.Thrown) :
  route_id (handlers_env env) = Some id ->
  id <> EmptyString ->
  select_answer env = SelectError e \/ select_answer env = SelectRejects e ->
  let w' := Eff.exec (fetchProject env migrate) w in
  shown w' = shown w
  /\ board w' = board w
  /\ log w' = log w ++ [EvSelectProject id]
  /\ page_loading w' = false
  /\ page_error w'
     = Some (match select_answer env with
             | SelectError _ => load_failed_msg
             | _ => unexpected_msg
             end).
Proof.
  intros Hid Hne Hans w'; subst w'.
  destruct w as [pg cb ld er lg]; load_env env.
  cbn [handlers_env route_id select_answer] in *; subst rid.
  destruct id as [|c r]; [congruence|]; clear Hne.
  destruct Hans as [->| ->]; load_open; repeat split.
Qed.

(** X24. When the backend answers with a row, [fetchProject] shows the
    project and the migrated card order, writes that order to the local
    store, clears the loading flag and leaves the error cell as it was. *)
Theorem fetchProject_success (env : LoadEnv) (w : PageWorld)
    (id : string) (row : ProjectRow) :
  route_id (handlers_env env) = Some id ->
  id <> EmptyString ->
  select_answer env = SelectRow row ->
  let migrated := migrate (dashboard_card_order row) DEFAULT_CARD_ORDER in
  let w' := Eff.exec (fetchProject env migrate) w in
  shown w'
  = mkPage (Some (row_project row)) migrated (copySuccess (shown w))
  /\ page_loading w' = false
  /\ page_error w' = page_error w
  /\ board w' = board w
  /\ In (EvPage (EvLocalStore (card_order_storage_key (Some id)) migrated))
       (log w').
Proof.
  intros Hid Hne Hans migrated w'; subst migrated w'.
  destruct w as [pg cb ld er lg]; load_env env.
  cbn [handlers_env route_id select_answer] in *; subst rid ans.
  destruct id as [|c r]; [congruence|]; clear Hne.
  destruct row as [rp stored]; load_open.
  destruct (json_truthy stored), (needsMigration stored);
    rewrite <- ?app_assoc; cbn [app];
    repeat split; rewrite ?in_app_iff; cbn [In]; tauto.
Qed.

(** X25. [fetchProject] writes the card order back to the backend exactly
    when the row carries a stored order that is truthy and is not yet in the
    current shape; for a stored array that is when some entry is not an
    object with an [order_key].  What it writes is the migrated order,
    under the identifier of the row. *)
Theorem fetchProject_writes_back_iff (env : LoadEnv) (w : PageWorld)
    (id : string) (row : ProjectRow) :
  route_id (handlers_env env) = Some id ->
  id <> EmptyString ->
  select_answer env = SelectRow row ->
  log w = [] ->
  let stored := dashboard_card_order row in
  let w' := Eff.exec (fetchProject env migrate) w in
  (forall cards pid,
     In (EvPage (EvSaveDashboardCardOrder cards pid)) (log w')
     <-> json_truthy stored = true /\ needsMigration stored = true
         /\ cards = migrate stored DEFAULT_CARD_ORDER
         /\ pid = project_id (row_project row))
  /\ (forall items,
     stored = JArray items ->
     needsMigration stored = true
     <-> exists entry, In entry items /\ has_order_key entry = false).
Proof.
  intros Hid Hne Hans Hl stored w'; subst stored w'.
  split.
  - destruct w as [pg cb ld er lg]; load_env env.
    cbn [handlers_env route_id select_answer log] in *; subst rid ans lg.
    destruct id as [|c r]; [congruence|]; clear Hne.
    destruct row as [rp stored]; load_cbv.
    destruct (json_truthy stored), (needsMigration stored); cbn [In];
      intros cards pid; split; intros H;
      repeat match goal with
      | H : _ /\ _ |- _ => destruct H
      | H : _ \/ _ |- _ => destruct H
      | H : False |- _ => destruct H
      | H : EvPage _ = EvPage _ |- _ => injection H as H
      | H : EvSaveDashboardCardOrder _ _ = EvSaveDashboardCardOrder _ _
        |- _ => injection H as <- <-
      | H : _ = _ |- _ => discriminate H
      end; subst; auto 6.
  - intros items ->; cbn [needsMigration].
    rewrite negb_true_iff, <- not_true_iff_false, forallb_forall.
    split.
    + intros H.
      induction items as [|e items IH].
      * destruct H; intros ? [].
      * destruct (has_order_key e) eqn:E.
        -- destruct IH as (x & Hx & Ex).
           { intros Hall; apply H; intros y [<-|Hy]; auto. }
           exists x; cbn [In]; auto.
        -- exists e; cbn [In]; auto.
    + intros (x & Hx & Ex) Hall; rewrite (Hall x Hx) in Ex; discriminate.
Qed.

(** X26. What the page shows after mounting, once the identity provider has
    loaded a user and the route carries an identifier: the dashboard of the
    row with the migrated card order when the backend answers with a row,
    and the "not found" page with the stored message otherwise.  Before the
    identity provider has loaded it shows the spinner. *)
Theorem view_after_mount (env : LoadEnv) (cards : list CardObject)
    (cb : option string) (id who : string) :
  route_id (handlers_env env) = Some id ->
  id <> EmptyString ->
  user (handlers_env env) = Some who ->
  let w' := Eff.exec (authEffect env migrate) (mounted cards cb) in
  (isLoaded env = false -> view env w' = Spinner)
  /\ (isLoaded env = true ->
      view env w'
      = match select_answer env with
        | SelectRow row =>
            Dashboard (row_project row)
              (migrate (dashboard_card_order row) DEFAULT_CARD_ORDER) false
        | SelectError _ => ProjectNotFound load_failed_msg
        | _ => ProjectNotFound unexpected_msg
        end).
Proof.
  intros Hid Hne Hu w'; subst w'.
  load_env env.
  cbn [handlers_env route_id user] in *; subst rid u.
  destruct id as [|c r]; [congruence|]; clear Hne.
  destruct loaded; (split; [intros H|intros H]; try discriminate H).
  - load_answers ans; reflexivity.
  - reflexivity.
Qed.

(** X27. [fetchProject] never clears an error: once an error message is
    stored, a later reload ends on the "not found" page whatever the
    backend answers, also when it answers with the row. *)
Theorem fetchProject_error_sticks (env : LoadEnv) (w : PageWorld)
    (id : string) :
  route_id (handlers_env env) = Some id ->
  id <> EmptyString ->
  isLoaded env = true ->
  Js.truthy (page_error w) = true ->
  exists text,
    view env (Eff.exec (fetchProject env migrate) w) = ProjectNotFound text.
Proof.
  intros Hid Hne Hl He.
  destruct w as [pg cb ld [[|c0 r0]|] lg]; try discriminate He.
  load_env env.
  cbn [handlers_env route_id isLoaded] in *; subst rid loaded.
  destruct id as [|c r]; [congruence|]; clear Hne.
  load_answers ans; eexists; reflexivity.
Qed.

End LoadProperties.

(* ------------------------------------------------------------------ *)
(** ** Rendering the cards *)

Section RenderProperties.
Import LeaseTrackerPage ProjectLoad.
Variable env : Env.

Lemma renderCard_by_content (cur : option ProjectData)
    (c c' : CardObject) :
  card_content c = card_content c' -> renderCard cur c = renderCard cur c'.
Proof.
  destruct cur as [p|]; [|reflexivity].
  destruct c as [[i t ti k]|k], c' as [[i' t' ti' k']|k']; cbn;
    intros H; try discriminate H; [|reflexivity].
  now injection H as -> -> ->.
Qed.

Lemma map_by_content {A B C : Type} (f : A -> B) (g : A -> C)
    (l l' : list A) :
  (forall a a', f a = f a' -> g a = g a') ->
  map f l = map f l' -> map g l = map g l'.
Proof.
  intros Hfg; revert l'; induction l as [|a l IH]; intros [|a' l'] H;
    try discriminate H; [reflexivity|].
  cbn in *; injection H as Ha Hl; f_equal; auto.
Qed.

(** X28. Rendering does not look at order keys: after a reorder with valid
    positions the rendered elements are the elements rendered before, moved
    the same way. *)
Theorem renderCard_follows_reorder
    (st : PageState) (cb : option string) (i j : Z)
    (cur : option ProjectData) :
  (0 <= i < Z.of_nat (length (cardOrder st)))%Z ->
  (0 <= j < Z.of_nat (length (cardOrder st)))%Z ->
  map (renderCard cur)
    (cardOrder (page (run (fun s => handleCardReorder env s i j) st cb)))
  = Reorder.move (Z.to_nat i) (Z.to_nat j)
      (map (renderCard cur) (cardOrder st)).
Proof.
  intros Hi Hj.
  destruct (handleCardReorder_contents env st cb i j Hi Hj) as [Hc _].
  rewrite move_map in Hc.
  rewrite move_map.
  exact (map_by_content card_content (renderCard cur) _ _
           (renderCard_by_content cur) Hc).
Qed.

End RenderProperties.

(* ------------------------------------------------------------------ *)
(** ** The further properties at sample inputs *)

Section ReorderAtSamples.
Import LeaseTrackerPage Samples LoadSamples.

Lemma handleCardReorder_permutes_witness :
  Permutation
    (map card_content
       (cardOrder
          (page (run (fun s => handleCardReorder working s 4 1)
                   (page_of fresh_project) None))))
    (map card_content DEFAULT_CARD_ORDER).
Proof.
  apply (handleCardReorder_permutes working (page_of fresh_project) None
           4 1); cbn; lia.
Defined.

Lemma handleCardReorder_round_trip_witness :
  map card_content
    (cardOrder
       (page (run (fun s => handleCardReorder working s 3 0)
                (page
                   (run (fun s => handleCardReorder working s 0 3)
                      (page_of fresh_project) None))
                None)))
  = map card_content DEFAULT_CARD_ORDER.
Proof.
  apply (handleCardReorder_round_trip working (page_of fresh_project)
           None None 0 3); cbn; lia.
Defined.

Lemma handleCardReorder_source_out_of_range_witness :
  map card_content
    (cardOrder
       (page (run (fun s => handleCardReorder working s 7 1)
                (page_of fresh_project) None)))
  = Reorder.insert_at 1 None (map card_content DEFAULT_CARD_ORDER).
Proof.
  apply (handleCardReorder_source_out_of_range working
           (page_of fresh_project) None 7 1); cbn; lia.
Defined.

Lemma handleCardReorder_keys_ascending_witness :
  StronglySorted KeyOrder.key_lt
    (map card_order_key
       (cardOrder
          (page (run (fun s => handleCardReorder working s 2 0)
                   (page_of fresh_project) None)))).
Proof.
  apply (handleCardReorder_keys_ascending working (page_of fresh_project)
           None 2 0); vm_compute; lia.
Defined.

Lemma renderCard_follows_reorder_witness :
  map (ProjectLoad.renderCard (Some fresh_project))
    (cardOrder
       (page (run (fun s => handleCardReorder working s 0 2)
                (page_of fresh_project) None)))
  = Reorder.move 0 2
      (map (ProjectLoad.renderCard (Some fresh_project))
         DEFAULT_CARD_ORDER).
Proof.
  apply (renderCard_follows_reorder working (page_of fresh_project) None
           0 2 (Some fresh_project)); cbn; lia.
Defined.

End ReorderAtSamples.

Section ShareMoreAtSamples.
Import LeaseTrackerPage ShareLog Samples LoadSamples.

Lemma handleShareProject_no_randomUUID_witness :
  run (handleShareProject no_randomUUID) (page_of fresh_project) None
  = mkWorld (page_of fresh_project) None
      [EvRandomUUID None; EvAlert share_failed_msg].
Proof.
  apply (handleShareProject_no_randomUUID no_randomUUID
           (page_of fresh_project) None fresh_project "user_1");
    reflexivity.
Defined.

Lemma handleShareProject_alert_is_final_witness :
  let w := run (handleShareProject (browser (ExecCommandReturns false)))
             (page_of fresh_project) None in
  (exists before,
     trace w = before ++ [EvAlert copy_failed_msg]
     /\ none_of is_alert before)
  /\ (copy_failed_msg = copy_failed_msg
      \/ copy_failed_msg = share_failed_msg)
  /\ none_of is_update (trace w)
  /\ page w = page_of fresh_project.
Proof.
  apply (handleShareProject_alert_is_final
           (browser (ExecCommandReturns false)) (page_of fresh_project)
           None copy_failed_msg).
  cbn; tauto.
Defined.

Lemma handleShareProject_flag_iff_copied_witness :
  let w := run (handleShareProject working) (page_of shared_project) None in
  copySuccess (page w) = true
  <-> exists text, Exists (copied text) (trace w) /\ clipboard w = Some text.
Proof.
  apply (handleShareProject_flag_iff_copied working
           (page_of shared_project) None); reflexivity.
Defined.

Lemma handleShareProject_reuses_identifier_witness :
  let st1 := page (run (handleShareProject working)
                     (page_of fresh_project) None) in
  project st1
  = Some (mkProject "proj_1" (Some "uuid-1"%string)
            [("title", "Harbor lease")]%string)
  /\ forall env2 cb2,
      origin env2 = "https://app.example"%string ->
      let w2 := run (handleShareProject env2) st1 cb2 in
      none_of is_randomUUID (trace w2)
      /\ none_of is_update (trace w2)
      /\ project (page w2) = project st1
      /\ Forall (fun e => forall text,
                   copy_attempt e = Some text ->
                   text = "https://app.example/share/uuid-1"%string)
           (trace w2).
Proof.
  apply (handleShareProject_reuses_identifier working
           (page_of fresh_project) None fresh_project "user_1" "uuid-1");
    try reflexivity; [discriminate | left; reflexivity].
Defined.

Lemma handleShareProject_failed_update_regenerates_witness :
  let st1 := page (run (handleShareProject
                          (browser (ExecCommandReturns true)))
                     (page_of fresh_project) None) in
  project st1 = Some fresh_project
  /\ forall env2 cb2 who,
      user env2 = Some who ->
      exists rest,
        trace (run (handleShareProject env2) st1 cb2)
        = EvRandomUUID (randomUUID env2) :: rest.
Proof.
  apply (handleShareProject_failed_update_regenerates
           (browser (ExecCommandReturns true)) (page_of fresh_project)
           None fresh_project); try reflexivity; discriminate.
Defined.

End ShareMoreAtSamples.

Section HookMoreAtSamples.
Import UseProjectData FetchPlan Samples.

Lemma public_rpc_witness :
  calls (fetch_from snd env_anonymous (by_share "requirements")
           initial_state)
  = [Rpc "get_public_client_requirements" "share_1"].
Proof.
  apply (public_rpc snd env_anonymous (by_share "requirements")
           initial_state "share_1"); reflexivity.
Defined.

Lemma fetch_unsorted_tags_witness :
  exists c,
    calls (fetch_from snd env_ok (by_project "updates")
             (mkState kept_rows true (Some "old"%string))) = [c]
    /\ forall answered,
      backend env_ok c = Resolves (mkResponse answered None) ->
      hook (fetch_from snd env_ok (by_project "updates")
              (mkState kept_rows true (Some "old"%string)))
      = mkState (match answered with Some rows => rows | None => [] end)
          false None.
Proof.
  apply (fetch_unsorted_tags snd env_ok (by_project "updates")
           (mkState kept_rows true (Some "old"%string)));
    [cbn; tauto | right; reflexivity].
Defined.

Lemma fetch_error_message_witness :
  exists c,
    calls (fetch_from snd env_error (by_share "roadmap") initial_state)
    = [c]
    /\ forall x,
      (exists d, backend env_error c = Resolves (mkResponse d (Some x)))
      \/ backend env_error c = Rejects x ->
      error (hook (fetch_from snd env_error (by_share "roadmap")
                     initial_state))
      = Some (if Js.instanceof_Error x then Js.message x
              else "An error occurred"%string).
Proof.
  apply (fetch_error_message snd env_error (by_share "roadmap")
           initial_state); [cbn; tauto | left; reflexivity].
Defined.

Lemma no_user_no_table_query_witness :
  ~ In (Select (mkQuery "project_documents" "*" "project_id" "proj_1"
                  "order_key" (Some true)))
      (calls (fetch_from snd env_anonymous (by_both "documents")
                initial_state)).
Proof.
  apply (no_user_no_table_query snd env_anonymous (by_both "documents")
           initial_state); reflexivity.
Defined.

Lemma public_mode_ignores_project_and_user_witness :
  fetch_from snd env_ok (by_both "properties") initial_state
  = fetch_from snd env_anonymous (by_share "properties") initial_state.
Proof.
  apply (public_mode_ignores_project_and_user snd env_ok env_anonymous
           (by_both "properties") (by_share "properties") initial_state);
    reflexivity.
Defined.

End HookMoreAtSamples.

Section LoadAtSamples.
Import LeaseTrackerPage ProjectLoad Samples LoadSamples.

Lemma authEffect_gate_witness :
  let w' := Eff.exec (authEffect signed_out_loaded default_order)
              (mounted DEFAULT_CARD_ORDER None) in
  (forall path,
     In (EvNavigate path) (log w')
     <-> path = "/"%string /\ isLoaded signed_out_loaded = true
         /\ user (handlers_env signed_out_loaded) = None)
  /\ (forall id,
     In (EvSelectProject id) (log w')
     <-> isLoaded signed_out_loaded = true
         /\ user (handlers_env signed_out_loaded) <> None
         /\ route_id (handlers_env signed_out_loaded) = Some id
         /\ id <> EmptyString).
Proof.
  apply (authEffect_gate default_order signed_out_loaded
           (mounted DEFAULT_CARD_ORDER None)); reflexivity.
Defined.

Lemma fetchProject_settles_witness :
  let env := signed_in_with (SelectRow (row_with legacy_order)) in
  let r := fetchProject env default_order
             (mounted DEFAULT_CARD_ORDER None) in
  fst r = Eff.Normal tt
  /\ page_loading (snd r) = false
  /\ board (snd r) = None
  /\ exists rest,
       log (snd r) = [] ++ EvSelectProject "proj_1" :: rest
       /\ Forall (fun e => forall id', e <> EvSelectProject id') rest.
Proof.
  intros env.
  apply (fetchProject_settles default_order env
           (mounted DEFAULT_CARD_ORDER None) "proj_1");
    [reflexivity | discriminate].
Defined.

Lemma fetchProject_failure_witness :
  let env := signed_in_with (SelectError (Js.mkThrown false "PGRST116")) in
  let w := mounted DEFAULT_CARD_ORDER None in
  let w' := Eff.exec (fetchProject env default_order) w in
  shown w' = shown w
  /\ board w' = board w
  /\ log w' = log w ++ [EvSelectProject "proj_1"]
  /\ page_loading w' = false
  /\ page_error w' = Some load_failed_msg.
Proof.
  intros env w.
  apply (fetchProject_failure default_order env w "proj_1"
           (Js.mkThrown false "PGRST116"));
    [reflexivity | discriminate | left; reflexivity].
Defined.

Lemma fetchProject_success_witness :
  let env := signed_in_with (SelectRow (row_with legacy_order)) in
  let w := mounted [] None in
  let w' := Eff.exec (fetchProject env default_order) w in
  shown w' = mkPage (Some fresh_project) DEFAULT_CARD_ORDER false
  /\ page_loading w' = false
  /\ page_error w' = None
  /\ board w' = None
  /\ In (EvPage (EvLocalStore "project-card-order-proj_1"
                   DEFAULT_CARD_ORDER))
       (log w').
Proof.
  intros env w.
  apply (fetchProject_success default_order env w "proj_1"
           (row_with legacy_order));
    [reflexivity | discriminate | reflexivity].
Defined.

Lemma fetchProject_writes_back_iff_witness :
  let w' := Eff.exec
              (fetchProject
                 (signed_in_with (SelectRow (row_with current_order)))
                 default_order)
              (mounted [] None) in
  (forall cards pid,
     In (EvPage (EvSaveDashboardCardOrder cards pid)) (log w')
     <-> json_truthy current_order = true
         /\ needsMigration current_order = true
         /\ cards = default_order current_order DEFAULT_CARD_ORDER
         /\ pid = "proj_1"%string)
  /\ (forall items,
     current_order = JArray items ->
     needsMigration current_order = true
     <-> exists entry, In entry items /\ has_order_key entry = false).
Proof.
  apply (fetchProject_writes_back_iff default_order
           (signed_in_with (SelectRow (row_with current_order)))
           (mounted [] None) "proj_1" (row_with current_order));
    [reflexivity | discriminate | reflexivity | reflexivity].
Defined.

Lemma view_after_mount_witness :
  let env := signed_in_with (SelectRow (row_with legacy_order)) in
  let w' := Eff.exec (authEffect env default_order) (mounted [] None) in
  (isLoaded env = false -> view env w' = Spinner)
  /\ (isLoaded env = true ->
      view env w' = Dashboard fresh_project DEFAULT_CARD_ORDER false).
Proof.
  intros env.
  apply (view_after_mount default_order env [] None "proj_1" "user_1");
    [reflexivity | discriminate | reflexivity].
Defined.

Lemma fetchProject_error_sticks_witness :
  let env := signed_in_with (SelectRow (row_with current_order)) in
  exists text,
    view env
      (Eff.exec (fetchProject env default_order)
         (mkPageWorld (page_of fresh_project) None false
            (Some load_failed_msg) []))
    = ProjectNotFound text.
Proof.
  intros env.
  apply (fetchProject_error_sticks default_order env
           (mkPageWorld (page_of fresh_project) None false
              (Some load_failed_msg) []) "proj_1");
    [reflexivity | discriminate | reflexivity | reflexivity].
Defined.

End LoadAtSamples.
